(** * atscm: node/file mapping, transformer pipeline and watch task

    A shallow embedding of [src/lib/server/AtviseFile.js] (value codec, storage
    paths, extension inference), of the pipeline composition of
    [Transformer.applyTransformers] and of the change handlers of the watch
    task, together with the properties the specification states about them.

    Conventions of the embedding:
    - a JavaScript string is the [string] of its UTF-8 bytes, so that
      [Buffer.from(text)] and [buffer.toString()] are the identity on text;
    - a JavaScript number is an integer [Z] (a time value, a 32-bit word, a type
      definition id); [NaN] is [None] where it can occur;
    - [undefined] and [null] are [None] of an [option];
    - a statement that can throw returns an [Outcome];
    - what the host decides (the time zone, the text of a date, what
      node-opcua resolves) is a field of [Library]. *)

From Stdlib Require Import ZArith Lia Bool List Ascii String.
From Stdlib Require Import DecimalFacts DecimalPos DecimalN DecimalZ DecimalString.
From stdpp Require Import base gmap strings.
Import ListNotations.
Open Scope string_scope.
Set Warnings "-register-all".

(** ** The JavaScript runtime the code relies on *)

Module Js.

Inductive Error :=
| Error_ (message : string)
| TypeError (message : string)
| SyntaxError (message : string).

Inductive Outcome (A : Type) :=
| Ok (a : A)
| Throw (e : Error).

Arguments Ok {A} a.
Arguments Throw {A} e.

Definition bind {A B} (o : Outcome A) (k : A -> Outcome B) : Outcome B :=
  match o with
  | Ok a => k a
  | Throw e => Throw e
  end.

Definition isOk {A} (o : Outcome A) : bool :=
  match o with
  | Ok _ => true
  | Throw _ => false
  end.

(** *** Strings *)

Definition bytes (codes : list nat) : string :=
  string_of_list_ascii (map ascii_of_nat codes).

Definition reverse (s : string) : string :=
  string_of_list_ascii (rev (list_ascii_of_string s)).

(** [startsWith p s] is the rest of [s] after the prefix [p], if [s] starts with [p]. *)
Fixpoint startsWith (p s : string) : option string :=
  match p, s with
  | EmptyString, _ => Some s
  | String a p', String b s' => if Ascii.eqb a b then startsWith p' s' else None
  | String _ _, EmptyString => None
  end.

(** The WhiteSpace and LineTerminator code points of ECMAScript, in UTF-8:
    TAB, LF, VT, FF, CR, SP, U+00A0, U+1680, U+2000..U+200A, U+2028, U+2029,
    U+202F, U+205F, U+3000 and U+FEFF. *)
Definition whiteSpace : list string :=
  map bytes
    [ [9]; [10]; [11]; [12]; [13]; [32]; [194; 160]; [225; 154; 128];
      [226; 128; 128]; [226; 128; 129]; [226; 128; 130]; [226; 128; 131];
      [226; 128; 132]; [226; 128; 133]; [226; 128; 134]; [226; 128; 135];
      [226; 128; 136]; [226; 128; 137]; [226; 128; 138];
      [226; 128; 168]; [226; 128; 169]; [226; 128; 175]; [226; 129; 159];
      [227; 128; 128]; [239; 187; 191] ].

(** Removes one leading token of [tokens], if there is one. *)
Fixpoint dropOne (tokens : list string) (s : string) : option string :=
  match tokens with
  | [] => None
  | t :: ts =>
      match startsWith t s with
      | Some r => Some r
      | None => dropOne ts s
      end
  end.

Fixpoint dropAll (fuel : nat) (tokens : list string) (s : string) : string :=
  match fuel with
  | O => s
  | S fuel' =>
      match dropOne tokens s with
      | Some r => dropAll fuel' tokens r
      | None => s
      end
  end.

Definition trimStart (s : string) : string :=
  dropAll (String.length s) whiteSpace s.

Definition trimEnd (s : string) : string :=
  reverse (dropAll (String.length s) (map reverse whiteSpace) (reverse s)).

(** [String.prototype.trim] *)
Definition trim (s : string) : string := trimEnd (trimStart s).

Definition isUpper (c : ascii) : bool :=
  let n := nat_of_ascii c in (65 <=? n)%nat && (n <=? 90)%nat.

(** [String.prototype.toLowerCase], on the ASCII letters (the names of the
    data types have no others). *)
Fixpoint toLowerCase (s : string) : string :=
  match s with
  | EmptyString => EmptyString
  | String c r =>
      String (if isUpper c then ascii_of_nat (nat_of_ascii c + 32) else c)
             (toLowerCase r)
  end.

(** [s.split(sep)] for a separator of one character. *)
Fixpoint splitAt (sep : ascii) (cur : string) (s : string) : list string :=
  match s with
  | EmptyString => [reverse cur]
  | String c r =>
      if Ascii.eqb c sep then reverse cur :: splitAt sep EmptyString r
      else splitAt sep (String c cur) r
  end.

Definition split (sep : ascii) (s : string) : list string :=
  splitAt sep EmptyString s.

(** [s.split(sep)[0]] for a separator [sep] that is not empty: the part of
    [s] before the first occurrence of [sep]. *)
Fixpoint splitHead (sep : string) (s : string) : string :=
  match startsWith sep s with
  | Some _ => EmptyString
  | None =>
      match s with
      | EmptyString => EmptyString
      | String c r => String c (splitHead sep r)
      end
  end.

(** [parts.join(sep)] *)
Fixpoint join (sep : string) (parts : list string) : string :=
  match parts with
  | [] => EmptyString
  | [p] => p
  | p :: ps => p ++ sep ++ join sep ps
  end.

(** [array.includes(x)] on an array of strings; [x] may be [undefined]. *)
Definition includes (l : list string) (x : option string) : bool :=
  match x with
  | Some s => existsb (String.eqb s) l
  | None => false
  end.

(** [array.indexOf(x)], with [None] for [-1]. *)
Fixpoint indexOf (l : list string) (x : string) : option nat :=
  match l with
  | [] => None
  | y :: ys => if String.eqb y x then Some O else option_map S (indexOf ys x)
  end.

(** *** Numbers *)

(** [Number.prototype.toString] of an integer (below [10^21] in magnitude,
    where JavaScript prints all digits). *)
Definition Number_toString (z : Z) : string :=
  NilZero.string_of_int (Z.to_int z).

Definition digitOf (c : ascii) : option Z :=
  let n := nat_of_ascii c in
  if (48 <=? n)%nat && (n <=? 57)%nat then Some (Z.of_nat n - 48)%Z else None.

(** Reads the longest prefix of decimal digits. *)
Fixpoint readDigits (acc : Z) (s : string) : Z * string :=
  match s with
  | EmptyString => (acc, EmptyString)
  | String c r =>
      match digitOf c with
      | Some d => readDigits (10 * acc + d)%Z r
      | None => (acc, s)
      end
  end.

Definition startsWithDigit (s : string) : bool :=
  match s with
  | String c _ => match digitOf c with Some _ => true | None => false end
  | EmptyString => false
  end.

(** [Number.parseInt(s, 10)]: leading white space is skipped, a sign is
    read, then the longest prefix of digits; [None] is [NaN]. *)
Definition parseInt (s : string) : option Z :=
  let s1 := trimStart s in
  let '(sign, s2) :=
    match s1 with
    | String "-" r => ((-1)%Z, r)
    | String "+" r => (1%Z, r)
    | _ => (1%Z, s1)
    end in
  if startsWithDigit s2 then Some (sign * fst (readDigits 0 s2))%Z else None.

(** *** Dates *)

(** The time value of a [Date]: milliseconds since the epoch, or [None] for
    the time value [NaN] of an invalid date. *)
Abbreviation TimeValue := (option Z).

Definition maxTime : Z := 8640000000000000.

(** [new Date(n)] keeps [n] when it is a time in range (TimeClip). *)
Definition Date_new (n : option Z) : TimeValue :=
  match n with
  | Some t => if (Z.abs t <=? maxTime)%Z then Some t else None
  | None => None
  end.

Definition secFromTime (n : Z) : Z := ((n / 1000) mod 60)%Z.
Definition minFromTime (n : Z) : Z := ((n / 60000) mod 60)%Z.
Definition hourFromTime (n : Z) : Z := ((n / 3600000) mod 24)%Z.
Definition day (n : Z) : Z := (n / 86400000)%Z.

(** ECMAScript's MakeTime and MakeDate, on integers. *)
Definition makeTime (hour min sec ms : Z) : Z :=
  (hour * 3600000 + min * 60000 + sec * 1000 + ms)%Z.

Definition makeDate (day time : Z) : Z := (day * 86400000 + time)%Z.

(** The time zone of the host: ECMAScript's [LocalTime(t)] and [UTC(t)],
    which the language leaves to the implementation. [UTC (LocalTime t)]
    need not be [t]: it is not in the hour that is repeated when daylight
    saving ends. *)
Record Zone := {
  LocalTime : Z -> Z;
  UTC : Z -> Z
}.

(** [date.setMilliseconds(0)], as ECMAScript computes it: the local time
    of the date is taken, its milliseconds are replaced by 0, and the date is
    set to the time value of that local time; an invalid date stays
    invalid. *)
Definition setMilliseconds0 (zone : Zone) (t : TimeValue) : TimeValue :=
  match t with
  | Some n =>
      let t := LocalTime zone n in
      let time := makeTime (hourFromTime t) (minFromTime t) (secFromTime t) 0 in
      Date_new (Some (UTC zone (makeDate (day t) time)))
  | None => None
  end.






(** [date.getTime().toString()] *)
Definition getTime_toString (t : TimeValue) : string :=
  match t with
  | Some n => Number_toString n
  | None => "NaN"
  end.

(** *** Values *)

(** An object of a library (a node id, a status code, a localized text, a
    floating-point number, ...), known by the only thing the code asks of it:
    the text [toString()] returns. *)
Record Obj := { toString : string }.

Inductive Value :=
| Null
| Bool (b : bool)
| Number (z : Z)
| Str (s : string)
| Date (t : TimeValue)
| Buffer (content : string)
| Array (elements : list Value)
| Object (o : Obj).

Definition Boolean_toString (b : bool) : string :=
  if b then "true" else "false".

(** *** JSON *)

(** [JSON.stringify([high, low])] of an array of two integers. *)
Definition JSON_stringify_pair (p : Z * Z) : string :=
  "[" ++ Number_toString (fst p) ++ "," ++ Number_toString (snd p) ++ "]".

(** [JSON.stringify] of an array of such arrays. *)
Definition JSON_stringify_pairs (l : list (Z * Z)) : string :=
  "[" ++ join "," (map JSON_stringify_pair l) ++ "]".

Definition isJsonSpace (c : ascii) : bool :=
  let n := nat_of_ascii c in
  (n =? 32)%nat || (n =? 9)%nat || (n =? 10)%nat || (n =? 13)%nat.

Fixpoint skipSpace (s : string) : string :=
  match s with
  | EmptyString => EmptyString
  | String c r => if isJsonSpace c then skipSpace r else s
  end.

Definition parseNumber (s : string) : option (Z * string) :=
  let '(sign, s1) :=
    match s with
    | String "-" r => ((-1)%Z, r)
    | _ => (1%Z, s)
    end in
  match s1 with
  | String "0" r => Some (0%Z, r)
  | _ =>
      if startsWithDigit s1
      then let '(n, r) := readDigits 0 s1 in Some ((sign * n)%Z, r)
      else None
  end.

Definition parseAtom (s : string) : option (Value * string) :=
  match startsWith "null" s, startsWith "true" s, startsWith "false" s with
  | Some r, _, _ => Some (Null, r)
  | _, Some r, _ => Some (Bool true, r)
  | _, _, Some r => Some (Bool false, r)
  | _, _, _ =>
      match parseNumber s with
      | Some (n, r) => Some (Number n, r)
      | None => None
      end
  end.

Fixpoint parseValue (fuel : nat) (s : string) : option (Value * string) :=
  match fuel with
  | O => None
  | S fuel' =>
      match s with
      | String "[" r =>
          match skipSpace r with
          | String "]" r' => Some (Array [], r')
          | r1 =>
              match parseElements fuel' r1 with
              | Some (l, r') => Some (Array l, r')
              | None => None
              end
          end
      | _ => parseAtom s
      end
  end
with parseElements (fuel : nat) (s : string) : option (list Value * string) :=
  match fuel with
  | O => None
  | S fuel' =>
      match parseValue fuel' s with
      | Some (v, r) =>
          match skipSpace r with
          | String "," r' =>
              match parseElements fuel' (skipSpace r') with
              | Some (l, r'') => Some (v :: l, r'')
              | None => None
              end
          | String "]" r' => Some ([v], r')
          | _ => None
          end
      | None => None
      end
  end.

(** [JSON.parse]. The texts made of arrays, integers and the literals
    [null], [true] and [false] are parsed here. What [JSON.parse] does with
    any other text (a syntax error, or a value with a fraction, an exponent,
    a string or an object) is [other]. *)
Definition JSON_parse (other : string -> Outcome Value) (s : string) : Outcome Value :=
  match parseValue (2 * String.length s + 2) (skipSpace s) with
  | Some (v, r) =>
      match skipSpace r with
      | EmptyString => Ok v
      | _ => other s
      end
  | None => other s
  end.

(** *** Plain objects used as maps *)

(** The own properties of a plain object, in the order in which JavaScript
    lists them: the array indices first, in ascending order, then the other
    keys in the order of their creation. *)
Definition Dict (V : Type) := list (string * V).

(** [Object.keys(obj)] *)
Definition keys {V} (obj : Dict V) : list string := map fst obj.

Fixpoint getOwn {V} (obj : Dict V) (key : string) : option V :=
  match obj with
  | [] => None
  | (k, w) :: rest => if String.eqb k key then Some w else getOwn rest key
  end.

(** The array index a key is, if it is one: the decimal numeral, without
    leading zeros, of an integer up to [2^32 - 2]. *)
Definition arrayIndex (key : string) : option Z :=
  if startsWithDigit key
  then
    let '(n, rest) := readDigits 0 key in
    if String.eqb rest EmptyString && String.eqb (Number_toString n) key
       && (n <=? 4294967294)%Z
    then Some n
    else None
  else None.

(** A new property whose key is the array index [n]: it comes before the
    larger indices and before the other keys. *)
Fixpoint insertIndex {V} (n : Z) (key : string) (v : V) (obj : Dict V) : Dict V :=
  match obj with
  | [] => [(key, v)]
  | (k, w) :: rest =>
      match arrayIndex k with
      | Some m =>
          if (m <? n)%Z then (k, w) :: insertIndex n key v rest
          else (key, v) :: obj
      | None => (key, v) :: obj
      end
  end.

(** The value of an existing property is replaced where the property is. *)
Fixpoint replace {V} (obj : Dict V) (key : string) (v : V) : Dict V :=
  match obj with
  | [] => []
  | (k, w) :: rest =>
      if String.eqb k key then (k, v) :: rest else (k, w) :: replace rest key v
  end.

(** The own data property [key] of [obj] is set to [v]. *)
Definition define {V} (obj : Dict V) (key : string) (v : V) : Dict V :=
  match getOwn obj key with
  | Some _ => replace obj key v
  | None =>
      match arrayIndex key with
      | Some n => insertIndex n key v obj
      | None => (obj ++ [(key, v)])%list
      end
  end.

(** [Object.assign(obj, { [key]: v })] where [v] is a primitive value (a
    string): the property is set, unless the key is [__proto__], which goes
    to the setter of [Object.prototype], and that one ignores a value that
    is no object. *)
Definition assign {V} (obj : Dict V) (key : string) (v : V) : Dict V :=
  if String.eqb key "__proto__" then obj else define obj key v.

(** The properties every plain object inherits from [Object.prototype]. *)
Definition prototypeKeys : list string :=
  [ "constructor"; "__defineGetter__"; "__defineSetter__"; "hasOwnProperty";
    "__lookupGetter__"; "__lookupSetter__"; "isPrototypeOf";
    "propertyIsEnumerable"; "toString"; "valueOf"; "__proto__";
    "toLocaleString" ].

(** The result of [obj[key]]: an own property, a member of
    [Object.prototype] (a function or an object: truthy, and none of the
    properties the code reads from it is defined), or [undefined]. *)
Inductive Property (V : Type) :=
| Own (v : V)
| Inherited
| Undefined.

Arguments Own {V} v.
Arguments Inherited {V}.
Arguments Undefined {V}.

Definition get {V} (obj : Dict V) (key : string) : Property V :=
  match getOwn obj key with
  | Some v => Own v
  | None => if includes prototypeKeys (Some key) then Inherited else Undefined
  end.

Definition truthy {V} (p : Property V) : bool :=
  match p with
  | Undefined => false
  | _ => true
  end.

(** An object whose properties are objects, built with
    [Object.assign(result, { [key]: value })]: its own properties and, when
    a key was [__proto__], the value that the setter of [Object.prototype]
    made the prototype of the object. *)
Record Table (V : Type) := {
  own : Dict V;
  proto : option V
}.

Arguments own {V} _.
Arguments proto {V} _.

(** [{}] *)
Definition emptyTable {V} : Table V := {| own := []; proto := None |}.

(** [Object.assign(result, { [key]: v })] where [v] is an object. *)
Definition assignObject {V} (result : Table V) (key : string) (v : V) : Table V :=
  if String.eqb key "__proto__"
  then {| own := own result; proto := Some v |}
  else {| own := define (own result) key v; proto := proto result |}.

(** [table[key]]. A key that is no own property is looked up in the
    prototype: [Object.prototype], or the object [p] that replaced it, in
    which case [__proto__] gives [p] itself and [member p key] tells whether
    [p[key]] is truthy. *)
Definition lookup {V} (member : V -> string -> bool) (table : Table V) (key : string)
  : Property V :=
  match getOwn (own table) key with
  | Some v => Own v
  | None =>
      match proto table with
      | None => if includes prototypeKeys (Some key) then Inherited else Undefined
      | Some p =>
          if String.eqb key "__proto__" then Own p
          else if member p key then Inherited else Undefined
      end
  end.

End Js.

Notation "x <- c1 ;; c2" := (Js.bind c1 (fun x => c2))
  (at level 60, c1 at next level, right associativity).

(** ** The enumerations of node-opcua *)

Module DataType.

(** The built-in data types of OPC UA, in the order of the enumeration. *)
Inductive t :=
| Null | Boolean | SByte | Byte | Int16 | UInt16 | Int32 | UInt32 | Int64
| UInt64 | Float | Double | String | DateTime | Guid | ByteString | XmlElement
| NodeId | ExpandedNodeId | StatusCode | QualifiedName | LocalizedText
| ExtensionObject | DataValue | Variant | DiagnosticInfo.

Definition all : list t :=
  [ Null; Boolean; SByte; Byte; Int16; UInt16; Int32; UInt32; Int64; UInt64;
    Float; Double; String; DateTime; Guid; ByteString; XmlElement; NodeId;
    ExpandedNodeId; StatusCode; QualifiedName; LocalizedText; ExtensionObject;
    DataValue; Variant; DiagnosticInfo ].

(** [dataType.toString()]: the key of the enumeration item. *)
Definition toString (d : t) : string :=
  match d with
  | Null => "Null" | Boolean => "Boolean" | SByte => "SByte" | Byte => "Byte"
  | Int16 => "Int16" | UInt16 => "UInt16" | Int32 => "Int32"
  | UInt32 => "UInt32" | Int64 => "Int64" | UInt64 => "UInt64"
  | Float => "Float" | Double => "Double" | String => "String"
  | DateTime => "DateTime" | Guid => "Guid" | ByteString => "ByteString"
  | XmlElement => "XmlElement" | NodeId => "NodeId"
  | ExpandedNodeId => "ExpandedNodeId" | StatusCode => "StatusCode"
  | QualifiedName => "QualifiedName" | LocalizedText => "LocalizedText"
  | ExtensionObject => "ExtensionObject" | DataValue => "DataValue"
  | Variant => "Variant" | DiagnosticInfo => "DiagnosticInfo"
  end.

(** [dataType.value]: the number of the built-in type. *)
Definition value (d : t) : Z :=
  match d with
  | Null => 0 | Boolean => 1 | SByte => 2 | Byte => 3 | Int16 => 4
  | UInt16 => 5 | Int32 => 6 | UInt32 => 7 | Int64 => 8 | UInt64 => 9
  | Float => 10 | Double => 11 | String => 12 | DateTime => 13 | Guid => 14
  | ByteString => 15 | XmlElement => 16 | NodeId => 17
  | ExpandedNodeId => 18 | StatusCode => 19 | QualifiedName => 20
  | LocalizedText => 21 | ExtensionObject => 22 | DataValue => 23
  | Variant => 24 | DiagnosticInfo => 25
  end.

#[global] Instance eq_dec : EqDecision t.
Proof. solve_decision. Defined.

(** What the enumeration object has under a key. node-opcua is a dependency
    of the repository; at the version it pins (0.0.60) the object [DataType]
    has each item under its name and under its value, the array [enums] of
    the items, and the flag [_is_flaggable], which is [false]. *)
Inductive Member :=
| Item (d : t)
| Enums
| IsFlaggable.

#[global] Instance Member_eq_dec : EqDecision Member.
Proof. solve_decision. Defined.

(** Whether a member is truthy: the items and the array are objects, the
    flag is [false]. *)
Definition truthy (m : Member) : bool :=
  match m with
  | IsFlaggable => false
  | _ => true
  end.

(** The own properties of [DataType], in the order of JavaScript: the
    values, which are array indices, then the other keys. *)
Definition entries : Js.Dict Member :=
  (map (fun d => (Js.Number_toString (value d), Item d)) all
   ++ [("enums", Enums)]
   ++ map (fun d => (toString d, Item d)) all
   ++ [("_is_flaggable", IsFlaggable)])%list.

(** [Object.keys(DataType)] *)
Definition keys : list string := Js.keys entries.

(** [DataType[key]] for a key that is a string: the member under that key,
    if there is one. *)
Definition get (key : string) : option Member := Js.getOwn entries key.

End DataType.

Module VariantArrayType.

Inductive t := Scalar | Array | Matrix.

(** [arrayType.value] *)
Definition value (a : t) : Z :=
  match a with
  | Scalar => 0
  | Array => 1
  | Matrix => 2
  end.

#[global] Instance eq_dec : EqDecision t.
Proof. solve_decision. Defined.

End VariantArrayType.

(** ** Node ids *)

Module NodeId.

Inductive NodeIdType := NUMERIC | STRING | GUID | BYTESTRING.

(** The [value] of a node id: a number or a string. *)
Inductive Identifier :=
| Numeric (n : Z)
| Text (s : string).

Record t := new {
  identifierType : NodeIdType;
  value : Identifier;
  namespace : Z
}.

#[global] Instance NodeIdType_eq_dec : EqDecision NodeIdType.
Proof. solve_decision. Defined.

#[global] Instance Identifier_eq_dec : EqDecision Identifier.
Proof. solve_decision. Defined.

#[global] Instance eq_dec : EqDecision t.
Proof. solve_decision. Defined.

(** [a === b] on two values. *)
Definition strictEquals (a b : Identifier) : bool := bool_decide (a = b).

(** The property key a value is converted to in [obj[value]]. *)
Definition key (v : Identifier) : string :=
  match v with
  | Numeric n => Js.Number_toString n
  | Text s => s
  end.

(** [new NodeId(value)] with a string only: a string identifier of the
    server's namespace 1. *)
Definition ofString (s : string) : t := new STRING (Text s) 1.

(** [nodeId.toString()], as node-opcua prints node ids. *)
Definition toString (n : t) : string :=
  "ns=" ++ Js.Number_toString (namespace n) ++ ";" ++
  match identifierType n with
  | NUMERIC => "i="
  | STRING => "s="
  | GUID => "g="
  | BYTESTRING => "b="
  end ++ key (value n).

(** Modelled from the spec: [NodeId.js] is not among the sources. The
    identifier's components, separated by dots, become the segments of the
    relative path ([AGENT.DISPLAYS.Main] is stored under
    [AGENT/DISPLAYS/Main]); [fromFilePath] is the inverse on such paths. The
    escaping of reserved characters is not described and is left out. *)
Definition filePath (n : t) : string :=
  Js.join "/" (Js.split "." (key (value n))).

Definition fromFilePath (path : string) : t :=
  ofString (Js.join "." (Js.split "/" path)).

End NodeId.

(** ** The table of atvise types *)

Module AtviseType.

(** An entry of [AtviseTypes] ([Types.js] is not among the sources; the
    fields are those [AtviseFile.js] reads). [fileExtension] is [None] when
    the entry has none. *)
Record t := new {
  typeDefinition : NodeId.t;
  identifier : string;
  dataType : DataType.t;
  fileExtension : option string;
  keepExtension : bool
}.

(** Whether [type[key]] is truthy, for a key other than [__proto__]: the
    fields of the entry, then the members of [Object.prototype]. *)
Definition member (type : t) (key : string) : bool :=
  if String.eqb key "typeDefinition" then true
  else if String.eqb key "identifier" then negb (String.eqb (identifier type) EmptyString)
  else if String.eqb key "dataType" then true
  else if String.eqb key "fileExtension"
  then match fileExtension type with
       | Some (String _ _) => true
       | _ => false
       end
  else if String.eqb key "keepExtension" then keepExtension type
  else Js.includes Js.prototypeKeys (Some key).

End AtviseType.

(** ** Values read from the server *)

(** Functions of node-opcua and of the JavaScript engine that the embedding
    leaves abstract. *)
Record Library := {
  (** [resolveNodeId(text)] of node-opcua; may throw. *)
  resolveNodeId : string -> Js.Outcome Js.Obj;
  (** [new Buffer(array, 'binary')] on an array of buffers: one byte per
      element, by the engine's conversion of an object to a number. *)
  Buffer_fromArray : list string -> string;
  (** [Date.prototype.toString], which depends on the locale. *)
  Date_toString : Js.TimeValue -> string;
  (** The time zone of the host. *)
  zone : Js.Zone;
  (** [JSON.parse] on the texts that are not made of arrays, integers and
      literals only. *)
  JSON_parse_other : string -> Js.Outcome Js.Value
}.

(** The JavaScript representation of a scalar of each data type: a boolean,
    an integer, an array of two 32-bit words for the 64-bit integers, a
    string, a [Date], a [Buffer], and an object of node-opcua for the
    structured types and the floating-point numbers. *)
Definition rep (dt : DataType.t) : Type :=
  match dt with
  | DataType.Boolean => bool
  | DataType.SByte | DataType.Byte | DataType.Int16 | DataType.UInt16
  | DataType.Int32 | DataType.UInt32 => Z
  | DataType.Int64 | DataType.UInt64 => (Z * Z)%type
  | DataType.String | DataType.Guid | DataType.XmlElement => string
  | DataType.DateTime => Js.TimeValue
  | DataType.ByteString => string
  | _ => Js.Obj
  end.

(** A value that is not [null]: a scalar, or the elements of an array or of
    a matrix. *)
Inductive Val (A : Type) :=
| Scalar (a : A)
| Elements (l : list A).

Arguments Scalar {A} a.
Arguments Elements {A} l.

Module OpcVariant.

(** The variant of a read result: [$dataType], [$arrayType] and [value]
    ([None] is [null]). *)
Record t := new {
  dataType : DataType.t;
  arrayType : VariantArrayType.t;
  value : option (Val (rep dataType))
}.

End OpcVariant.

(** The scalar as a JavaScript value. *)
Definition toValue (dt : DataType.t) : rep dt -> Js.Value :=
  match dt with
  | DataType.Boolean => Js.Bool
  | DataType.SByte | DataType.Byte | DataType.Int16 | DataType.UInt16
  | DataType.Int32 | DataType.UInt32 => Js.Number
  | DataType.Int64 | DataType.UInt64 =>
      fun p => Js.Array [Js.Number (fst p); Js.Number (snd p)]
  | DataType.String | DataType.Guid | DataType.XmlElement => Js.Str
  | DataType.DateTime => Js.Date
  | DataType.ByteString => Js.Buffer
  | _ => Js.Object
  end.

Definition valueOf (dt : DataType.t) (v : option (Val (rep dt))) : Js.Value :=
  match v with
  | None => Js.Null
  | Some (Scalar a) => toValue dt a
  | Some (Elements l) => Js.Array (map (toValue dt) l)
  end.

(** [x.toString()] of a scalar. *)
Definition scalarToString (lib : Library) (dt : DataType.t) : rep dt -> string :=
  match dt with
  | DataType.Boolean => Js.Boolean_toString
  | DataType.SByte | DataType.Byte | DataType.Int16 | DataType.UInt16
  | DataType.Int32 | DataType.UInt32 => Js.Number_toString
  | DataType.Int64 | DataType.UInt64 =>
      fun p => Js.Number_toString (fst p) ++ "," ++ Js.Number_toString (snd p)
  | DataType.String | DataType.Guid | DataType.XmlElement => fun s => s
  | DataType.DateTime => Date_toString lib
  | DataType.ByteString => fun b => b
  | _ => Js.toString
  end.

(** [value.value.toString()]: an array joins the texts of its elements. *)
Definition toString (lib : Library) (dt : DataType.t) (v : Val (rep dt)) : string :=
  match v with
  | Scalar a => scalarToString lib dt a
  | Elements l => Js.join "," (map (scalarToString lib dt) l)
  end.

(** A buffer is the string of its bytes; [Buffer.from] keeps them. *)
Definition Buffer_from (s : string) : string := s.

(** ** AtviseFile.js *)

Module ReadStream.

(** What a reference description of the server gives for a node. *)
Record ReferenceDescription := {
  typeDefinition : NodeId.t
}.

(** A read result. [value] is [None] when the result carries no variant;
    [mtime] is [None] or the address of a [Date] object. *)
Record ReadResult := {
  nodeId : NodeId.t;
  value : option OpcVariant.t;
  referenceDescription : ReferenceDescription;
  mtime : option positive
}.

End ReadStream.

(** An [AtviseFile]: the [relative] path and the [dirname] that vinyl
    derives from the file's path, its [contents] ([None] is [null]), the
    cached metadata ([None] is [undefined]; the data type is whatever member
    of [DataType] the inference stored) and [stat.mtime]. *)
Record AtviseFile := {
  relative : string;
  dirname : string;
  contents : option string;
  _dataType : option DataType.Member;
  _arrayType : option VariantArrayType.t;
  _typeDefinition : option NodeId.t;
  stat_mtime : option positive
}.

Definition set_dataType (d : option DataType.Member) (f : AtviseFile) : AtviseFile :=
  {| relative := relative f; dirname := dirname f; contents := contents f;
     _dataType := d; _arrayType := _arrayType f;
     _typeDefinition := _typeDefinition f; stat_mtime := stat_mtime f |}.

Definition set_arrayType (a : option VariantArrayType.t) (f : AtviseFile) : AtviseFile :=
  {| relative := relative f; dirname := dirname f; contents := contents f;
     _dataType := _dataType f; _arrayType := a;
     _typeDefinition := _typeDefinition f; stat_mtime := stat_mtime f |}.

Definition set_typeDefinition (t : option NodeId.t) (f : AtviseFile) : AtviseFile :=
  {| relative := relative f; dirname := dirname f; contents := contents f;
     _dataType := _dataType f; _arrayType := _arrayType f;
     _typeDefinition := t; stat_mtime := stat_mtime f |}.

(** [path.dirname] on a relative or absolute POSIX path. *)
Definition Path_dirname (p : string) : string :=
  match Js.split "/" p with
  | [] | [_] => "."
  | parts =>
      match Js.join "/" (removelast parts) with
      | EmptyString => "/"
      | d => d
      end
  end.

Definition lastOf (l : list string) : option string :=
  List.last (map Some l) None.

(** The key an extension is converted to in [obj[ext]]. *)
Definition propertyKey (ext : option string) : string :=
  match ext with
  | Some e => e
  | None => "undefined"
  end.

Section Server.

Variable lib : Library.
Variable AtviseTypes : list AtviseType.t.

(** [AtviseTypesByValue]: the types against their definition id's value. *)
Definition AtviseTypesByValue : Js.Table AtviseType.t :=
  fold_left
    (fun result type =>
       Js.assignObject result
         (NodeId.key (NodeId.value (AtviseType.typeDefinition type))) type)
    AtviseTypes Js.emptyTable.

(** [AtviseTypesByIdentifier]: the types against their identifiers. *)
Definition AtviseTypesByIdentifier : Js.Table AtviseType.t :=
  fold_left
    (fun result type => Js.assignObject result (AtviseType.identifier type) type)
    AtviseTypes Js.emptyTable.

Definition ExtensionForDataType : Js.Dict string :=
  [ (DataType.toString DataType.Boolean, "bool");
    (DataType.toString DataType.XmlElement, "xml") ].

Definition reverseObject (obj : Js.Dict string) : Js.Dict string :=
  fold_left
    (fun result key =>
       match Js.getOwn obj key with
       | Some v => Js.assign result v key
       | None => result
       end)
    (Js.keys obj) [].

Definition DataTypeForExtension : Js.Dict string :=
  reverseObject ExtensionForDataType.

Definition types : list string := DataType.keys.

Definition typeExtensions : list string := map Js.toLowerCase types.

Definition VariableTypeDefinition : NodeId.t :=
  NodeId.new NodeId.NUMERIC (NodeId.Numeric 62) 0.

Definition PropertyTypeDefinition : NodeId.t :=
  NodeId.new NodeId.NUMERIC (NodeId.Numeric 68) 0.

Definition isSeparator (c : ascii) : bool :=
  Ascii.eqb c "/" || Ascii.eqb c "\".

Fixpoint noSeparator (s : string) : bool :=
  match s with
  | EmptyString => true
  | String c r => negb (isSeparator c) && noSeparator r
  end.

(** [s.match(ExtensionRegExp)], giving the group [m[1]]: the text after the
    leftmost dot that no [/] and no [\] follows. *)
Fixpoint ExtensionRegExp_match (s : string) : option string :=
  match s with
  | EmptyString => None
  | String c r =>
      if Ascii.eqb c "." && noSeparator r then Some r
      else ExtensionRegExp_match r
  end.

(** The encoders; the result is made a buffer by [encodeValue]. *)
Definition Encoder (dt : DataType.t) : option (Val (rep dt) -> Js.Outcome string) :=
  match dt with
  | DataType.DateTime =>
      Some (fun date =>
              match date with
              | Scalar d => Js.Ok (Js.getTime_toString d)
              | Elements _ => Js.Throw (Js.TypeError "date.getTime is not a function")
              end)
  | DataType.UInt64 =>
      Some (fun uInt32Array =>
              match uInt32Array with
              | Scalar p => Js.Ok (Js.JSON_stringify_pair p)
              | Elements l => Js.Ok (Js.JSON_stringify_pairs l)
              end)
  | DataType.Int64 =>
      Some (fun int32Array =>
              match int32Array with
              | Scalar p => Js.Ok (Js.JSON_stringify_pair p)
              | Elements l => Js.Ok (Js.JSON_stringify_pairs l)
              end)
  | DataType.ByteString =>
      Some (fun binaryArray =>
              match binaryArray with
              | Scalar b => Js.Ok b
              | Elements l => Js.Ok (Buffer_fromArray lib l)
              end)
  | _ => None
  end.

(** The decoders, applied to [buffer.toString()]. *)
Definition Decoder (dt : DataType.t) : option (string -> Js.Outcome Js.Value) :=
  match dt with
  | DataType.Boolean => Some (fun stringValue => Js.Ok (Js.Bool (String.eqb stringValue "true")))
  | DataType.String => Some (fun stringValue => Js.Ok (Js.Str stringValue))
  | DataType.NodeId =>
      Some (fun stringValue => o <- resolveNodeId lib stringValue ;; Js.Ok (Js.Object o))
  | DataType.DateTime =>
      Some (fun stringValue => Js.Ok (Js.Date (Js.Date_new (Js.parseInt stringValue))))
  | DataType.UInt64 => Some (Js.JSON_parse (JSON_parse_other lib))
  | DataType.Int64 => Some (Js.JSON_parse (JSON_parse_other lib))
  | _ => None
  end.

Definition extensionForDataType (dataType : DataType.t) : string :=
  match Js.getOwn ExtensionForDataType (DataType.toString dataType) with
  | Some e => e
  | None => Js.toLowerCase (DataType.toString dataType)
  end.

(** [AtviseFile.pathForReadResult] *)
Definition pathForReadResult (readResult : ReadStream.ReadResult) : Js.Outcome string :=
  let path := NodeId.filePath (ReadStream.nodeId readResult) in
  match ReadStream.value readResult with
  | None => Js.Throw (Js.TypeError "Cannot read property '$dataType' of null")
  | Some variant =>
      let dataType := OpcVariant.dataType variant in
      let arrayType := OpcVariant.arrayType variant in
      let typeDefinition :=
        ReadStream.typeDefinition (ReadStream.referenceDescription readResult) in
      let path :=
        if NodeId.strictEquals (NodeId.value typeDefinition)
                               (NodeId.value VariableTypeDefinition)
        then path ++ "." ++ extensionForDataType dataType
        else if NodeId.strictEquals (NodeId.value typeDefinition)
                                    (NodeId.value PropertyTypeDefinition)
        then path ++ ".prop." ++ extensionForDataType dataType
        else
          let '(identifier, fileExtension, keepExtension) :=
            match Js.lookup AtviseType.member AtviseTypesByValue
                    (NodeId.key (NodeId.value typeDefinition)) with
            | Js.Own atType =>
                (AtviseType.identifier atType,
                 AtviseType.fileExtension atType,
                 AtviseType.keepExtension atType)
            | Js.Inherited => ("undefined", None, false)
            | Js.Undefined => ("var", None, false)
            end in
          if negb keepExtension
          then path ++ "." ++ identifier ++ "." ++
               match fileExtension with
               | Some (String c e) => String c e
               | _ => extensionForDataType dataType
               end
          else path in
      let path :=
        if negb (VariantArrayType.value arrayType =? VariantArrayType.value VariantArrayType.Scalar)%Z
        then path ++ "." ++
             (if bool_decide (arrayType = VariantArrayType.Array) then "array" else "matrix")
        else path in
      Js.Ok path
  end.

(** [AtviseFile.encodeValue(value, value.$dataType)] *)
Definition encodeValue (value : OpcVariant.t) : Js.Outcome string :=
  match OpcVariant.value value with
  | None => Js.Ok (Buffer_from "")
  | Some v =>
      match Encoder (OpcVariant.dataType value) with
      | Some encoder => encoded <- encoder v ;; Js.Ok (Buffer_from encoded)
      | None => Js.Ok (Buffer_from (Js.trim (toString lib (OpcVariant.dataType value) v)))
      end
  end.

(** [AtviseFile.decodeValue] *)
Definition decodeValue (buffer : option string) (dataType : DataType.t) : Js.Outcome Js.Value :=
  match buffer with
  | None => Js.Ok Js.Null
  | Some b =>
      if (String.length b =? 0)%nat then Js.Ok Js.Null
      else
        match Decoder dataType with
        | Some decoder => decoder b
        | None => Js.Ok (Js.Buffer b)
        end
  end.

(** [AtviseFile.normalizeMtime]: [date] is the address of a [Date] object
    in the store [h]; the result is the same address. *)
Definition normalizeMtime (date : positive) (h : gmap positive Js.TimeValue)
  : positive * gmap positive Js.TimeValue :=
  let result := date in
  let h := alter (Js.setMilliseconds0 (zone lib)) result h in
  (result, h).

(** [AtviseFile.fromReadResult] *)
Definition fromReadResult (readResult : ReadStream.ReadResult) (h : gmap positive Js.TimeValue)
  : Js.Outcome (AtviseFile * gmap positive Js.TimeValue) :=
  match ReadStream.value readResult with
  | None => Js.Throw (Js.Error_ "no value")
  | Some variant =>
      path <- pathForReadResult readResult ;;
      encoded <- encodeValue variant ;;
      let '(stat_mtime, h) :=
        match ReadStream.mtime readResult with
        | Some date => let '(d, h') := normalizeMtime date h in (Some d, h')
        | None => (None, h)
        end in
      Js.Ok ({| relative := path;
                dirname := Path_dirname path;
                contents := Some encoded;
                _dataType := Some (DataType.Item (OpcVariant.dataType variant));
                _arrayType := Some (OpcVariant.arrayType variant);
                _typeDefinition :=
                  Some (ReadStream.typeDefinition (ReadStream.referenceDescription readResult));
                stat_mtime := stat_mtime |}, h)
  end.

(** [ifLastExtensionMatches(matches, fn)], on the file and the local
    [extensions]. *)
Definition ifLastExtensionMatches
    (matches : option string -> bool)
    (fn : option string -> AtviseFile -> AtviseFile)
    (st : AtviseFile * list string) : AtviseFile * list string :=
  let '(this, extensions) := st in
  if matches (lastOf extensions)
  then (fn (lastOf extensions) this, removelast extensions)
  else st.

Definition complete (this : AtviseFile) : bool :=
  match _dataType this, _typeDefinition this with
  | Some _, Some _ => true
  | _, _ => false
  end.

(** [DataType[types[typeExtensions.indexOf(ext)]]] *)
Definition dataTypeOfTypeExtension (ext : option string) : option DataType.Member :=
  match Js.indexOf typeExtensions (propertyKey ext) with
  | Some i =>
      match nth_error types i with
      | Some key => DataType.get key
      | None => None
      end
  | None => None
  end.

(** [DataType[DataTypeForExtension[ext]]] *)
Definition dataTypeOfShortExtension (ext : option string) : option DataType.Member :=
  match Js.get DataTypeForExtension (propertyKey ext) with
  | Js.Own name => DataType.get name
  | _ => None
  end.

Definition OctetStreamTypeDefinition : NodeId.t :=
  NodeId.ofString "VariableTypes.ATVISE.Resource.OctetStream".

(** The extensions [_getMetadata] starts from: those of the file name and,
    for split files, the one of the directory name. *)
Definition extensionsOf (this : AtviseFile) : list string :=
  let extensions :=
    match ExtensionRegExp_match (relative this) with
    | Some m1 => Js.split "." m1
    | None => []
    end in
  let dirnameExts := Js.split "." (dirname this) in
  if (1 <? length dirnameExts)%nat
  then List.last dirnameExts EmptyString :: extensions
  else extensions.

(** The first part of [_getMetadata]: the default array type, and the
    consumption of the array and data type extensions. *)
Definition consumeExtensions (this : AtviseFile) : AtviseFile * list string :=
  let this := set_arrayType (Some VariantArrayType.Scalar) this in
  let extensions := extensionsOf this in
  let st := (this, extensions) in
  let st :=
    ifLastExtensionMatches
      (fun ext => bool_decide (ext = Some "array"))
      (fun _ => set_arrayType (Some VariantArrayType.Array)) st in
  let st :=
    ifLastExtensionMatches
      (fun ext => bool_decide (ext = Some "matrix"))
      (fun _ => set_arrayType (Some VariantArrayType.Matrix)) st in
  let st :=
    ifLastExtensionMatches
      (fun ext => Js.includes typeExtensions ext)
      (fun ext => set_dataType (dataTypeOfTypeExtension ext)) st in
  let st :=
    ifLastExtensionMatches
      (fun ext => Js.truthy (Js.get DataTypeForExtension (propertyKey ext)))
      (fun ext => set_dataType (dataTypeOfShortExtension ext)) st in
  st.

(** The handling of the atvise types in [_getMetadata]: the first
    identifier of the table, in the order of its keys, that is among the
    extensions gives the type definition and the data type. *)
Definition handleAtviseTypes (extensions : list string) (this : AtviseFile) : AtviseFile :=
  (* Object.keys(AtviseTypesByIdentifier).forEach: the own properties in
     the order of their keys, each with the type stored under its key *)
  snd (fold_left
         (fun (acc : bool * AtviseFile) (entry : string * AtviseType.t) =>
            let '(foundAtType, this) := acc in
            let '(identifier, type) := entry in
            if negb foundAtType && Js.includes extensions (Some identifier)
            then (true,
                  set_dataType (Some (DataType.Item (AtviseType.dataType type)))
                    (set_typeDefinition (Some (AtviseType.typeDefinition type)) this))
            else acc)
         (Js.own AtviseTypesByIdentifier) (false, this)).

(** The second part of [_getMetadata]: the type definition. *)
Definition resolveTypeDefinition (st : AtviseFile * list string) : AtviseFile :=
  let '(this, extensions) := st in
  let this :=
    if (length extensions =? 0)%nat
    then set_typeDefinition (Some (NodeId.new NodeId.NUMERIC (NodeId.Numeric 62) 0)) this
    else this in
  let '(this, extensions) :=
    ifLastExtensionMatches
      (fun ext => bool_decide (ext = Some "prop"))
      (fun _ => set_typeDefinition (Some (NodeId.new NodeId.NUMERIC (NodeId.Numeric 68) 0)))
      (this, extensions) in
  let this :=
    if negb (complete this)
    then handleAtviseTypes extensions this
    else this in
  if negb (complete this)
  then set_dataType (Some (DataType.Item DataType.ByteString))
         (set_typeDefinition (Some OctetStreamTypeDefinition) this)
  else this.

(** [AtviseFile#_getMetadata] *)
Definition _getMetadata (this : AtviseFile) : AtviseFile :=
  resolveTypeDefinition (consumeExtensions this).

(** [!this._dataType]: the field is [undefined], or the flag [false] that
    the inference can store in it. *)
Definition noDataType (this : AtviseFile) : bool :=
  match _dataType this with
  | None => true
  | Some m => negb (DataType.truthy m)
  end.

(** The getters [dataType], [arrayType] and [typeDefinition]: the metadata
    is computed when the field is falsy (an array type and a type definition
    are objects, so that only [undefined] is); the file is returned with
    it. *)
Definition dataType (this : AtviseFile) : option DataType.Member * AtviseFile :=
  let this := if noDataType this then _getMetadata this else this in
  (_dataType this, this).

Definition arrayType (this : AtviseFile) : option VariantArrayType.t * AtviseFile :=
  let this :=
    match _arrayType this with
    | None => _getMetadata this
    | Some _ => this
    end in
  (_arrayType this, this).

Definition typeDefinition (this : AtviseFile) : option NodeId.t * AtviseFile :=
  let this :=
    match _typeDefinition this with
    | None => _getMetadata this
    | Some _ => this
    end in
  (_typeDefinition this, this).

(** The getter [value] *)
Definition value (this : AtviseFile) : Js.Outcome Js.Value :=
  match fst (dataType this) with
  | Some (DataType.Item dt) => decodeValue (contents this) dt
  | Some DataType.Enums | Some DataType.IsFlaggable | None =>
      (* no decoder is stored against the array of the items, against
         [false] or against [undefined] *)
      match contents this with
      | None => Js.Ok Js.Null
      | Some b => if (String.length b =? 0)%nat then Js.Ok Js.Null else Js.Ok (Js.Buffer b)
      end
  end.

(** The getter [nodeId] *)
Definition nodeId (this : AtviseFile) : Js.Outcome NodeId.t :=
  match fst (typeDefinition this) with
  | None => Js.Throw (Js.TypeError "Cannot read property 'value' of undefined")
  | Some td =>
      let atType :=
        Js.lookup AtviseType.member AtviseTypesByValue (NodeId.key (NodeId.value td)) in
      let idPath := relative this in
      let strip :=
        match atType with
        | Js.Own t => negb (AtviseType.keepExtension t)
        | Js.Inherited => true
        | Js.Undefined => true
        end in
      if strip
      then
        match ExtensionRegExp_match idPath with
        | Some exts => Js.Ok (NodeId.fromFilePath (Js.splitHead ("." ++ exts) idPath))
        | None => Js.Throw (Js.TypeError "Cannot read property '1' of null")
        end
      else Js.Ok (NodeId.fromFilePath idPath)
  end.

End Server.

Arguments handleAtviseTypes : simpl never.

(** ** Transformer.applyTransformers *)

Module Transformer.

Inductive TransformDirection := FromDB | FromFilesystem.

(** The direction a caller passes: one of the two values, or anything else. *)
Inductive DirectionArgument :=
| Direction (d : TransformDirection)
| Other (s : string).

Section Pipeline.

Variable File : Type.

(** Modelled from the spec: [Transformer.js] is not among the sources (its
    test is). A transformer has one method per direction; a stage consumes a
    file and produces zero, one or many files, or fails. It may be bound to
    a direction. *)
Record t := new {
  transformFromDB : File -> Js.Outcome (list File);
  transformFromFilesystem : File -> Js.Outcome (list File);
  direction : option TransformDirection
}.

Definition withDirection (d : TransformDirection) (transformer : t) : t :=
  {| transformFromDB := transformFromDB transformer;
     transformFromFilesystem := transformFromFilesystem transformer;
     direction := Some d |}.

(** Modelled from the spec: a stage uses the method of its direction. *)
Definition _transform (transformer : t) (file : File) : Js.Outcome (list File) :=
  match direction transformer with
  | None => Js.Throw (Js.Error_ "Transformer has no direction")
  | Some FromDB => transformFromDB transformer file
  | Some FromFilesystem => transformFromFilesystem transformer file
  end.

(** A stream: the stages piped one to the next, first stage first. The
    stream without stages passes every file through. *)
Definition Stream := list t.

Definition createStream : Stream := [].

Definition pipe (upstream : Stream) (stage : t) : Stream := (upstream ++ [stage])%list.

(** Modelled from the spec: the composition of a list of transformers for a
    direction. The direction is validated; no transformer gives the
    pass-through; one transformer is bound to the direction and returned;
    otherwise all are bound to the direction and chained, in the reversed
    order for [FromFilesystem]. *)
Definition applyTransformers (transformers : list t) (d : DirectionArgument)
  : Js.Outcome Stream :=
  match d with
  | Other _ => Js.Throw (Js.Error_ "Direction is invalid")
  | Direction dir =>
      match transformers with
      | [] => Js.Ok createStream
      | [transformer] => Js.Ok [withDirection dir transformer]
      | _ =>
          let ordered :=
            match dir with
            | FromFilesystem => rev transformers
            | FromDB => transformers
            end in
          Js.Ok (fold_left (fun stream transformer => pipe stream (withDirection dir transformer))
                           ordered createStream)
      end
  end.

(** A method on the files that reach it, in order: the files it produces. *)
Fixpoint each (method : File -> Js.Outcome (list File)) (files : list File)
  : Js.Outcome (list File) :=
  match files with
  | [] => Js.Ok []
  | file :: rest =>
      out <- method file ;;
      outs <- each method rest ;;
      Js.Ok (out ++ outs)%list
  end.

(** One stage on the files that reach it. *)
Definition runStage (stage : t) (files : list File) : Js.Outcome (list File) :=
  each (_transform stage) files.

(** The files that leave a stream fed with [files]. *)
Fixpoint run (stream : Stream) (files : list File) : Js.Outcome (list File) :=
  match stream with
  | [] => Js.Ok files
  | stage :: rest =>
      files' <- runStage stage files ;;
      run rest files'
  end.

End Pipeline.

Arguments transformFromDB {File} _ _.
Arguments transformFromFilesystem {File} _ _.
Arguments direction {File} _.
Arguments withDirection {File} _ _.
Arguments _transform {File} _ _.
Arguments applyTransformers {File} _ _.
Arguments each {File} _ _.
Arguments runStage {File} _ _.
Arguments pipe {File} _ _.
Arguments createStream {File}.
Arguments run {File} _ _.

End Transformer.

(** ** The watch task *)

Module WatchTask.

Record t := {
  _pulling : bool;
  _pushing : bool;
  (** the number [0], or the time value of the date of the last pull *)
  _lastPull : Js.TimeValue;
  _lastPushed : option string
}.

(** [new WatchTask()] *)
Definition constructor : t :=
  {| _pulling := false; _pushing := false; _lastPull := Some 0%Z; _lastPushed := None |}.

(** What a handler starts or reports. *)
Inductive Effect :=
| StartPush (path : string)
| StartPull (nodeId : string)
| Reload
| Resolve (triggered : bool).

(** The time value of [AtviseFile.normalizeMtime(date)], for a date of time
    value [n]. *)
Definition normalizedTime (zone : Js.Zone) (n : Z) : Js.TimeValue :=
  Js.setMilliseconds0 zone (Some n).

(** [a > b] on a date and a date or a number: both are compared by their
    time values, and no comparison with [NaN] holds. *)
Definition greater (a b : Js.TimeValue) : bool :=
  match a, b with
  | Some x, Some y => (y <? x)%Z
  | _, _ => false
  end.

(** [handleFileChange], up to the start of the push stream, for a file
    whose [stats.mtime] has the time value [mtime]. *)
Definition handleFileChange (zone : Js.Zone) (path : string) (mtime : Z) (this : t)
  : t * list Effect :=
  if negb (_pulling this) && greater (normalizedTime zone mtime) (_lastPull this)
  then ({| _pulling := _pulling this; _pushing := true;
           _lastPull := _lastPull this; _lastPushed := _lastPushed this |},
        [StartPush path])
  else (this, [Resolve false]).

(** The push stream's ['data'] callback, for a pushed file of node [nodeId]. *)
Definition onPushData (nodeId : NodeId.t) (this : t) : t :=
  {| _pulling := _pulling this; _pushing := _pushing this;
     _lastPull := _lastPull this; _lastPushed := Some (NodeId.toString nodeId) |}.

(** The push stream's ['end'] callback. *)
Definition onPushEnd (this : t) : t * list Effect :=
  ({| _pulling := _pulling this; _pushing := false;
      _lastPull := _lastPull this; _lastPushed := _lastPushed this |},
   [Reload; Resolve true]).

(** [handleServerChange], up to the start of the pull stream. *)
Definition handleServerChange (nodeId : NodeId.t) (this : t) : t * list Effect :=
  if negb (_pushing this)
  then
    if negb (bool_decide (Some (NodeId.toString nodeId) = _lastPushed this))
    then ({| _pulling := true; _pushing := _pushing this;
             _lastPull := _lastPull this; _lastPushed := _lastPushed this |},
          [StartPull (NodeId.toString nodeId)])
    else ({| _pulling := _pulling this; _pushing := _pushing this;
             _lastPull := _lastPull this; _lastPushed := None |},
          [Resolve false])
  else (this, [Resolve false]).

(** The pull stream's ['end'] callback, for a read result whose [mtime]
    has the time value [mtime] when the stream ends. *)
Definition onPullEnd (zone : Js.Zone) (mtime : Z) (this : t) : t * list Effect :=
  ({| _pulling := false; _pushing := _pushing this;
      _lastPull := normalizedTime zone mtime; _lastPushed := _lastPushed this |},
   [Reload; Resolve true]).

(** Whether a handler started a pull. *)
Definition startsPull (effects : list Effect) : bool :=
  existsb (fun e => match e with StartPull _ => true | _ => false end) effects.

End WatchTask.

(** ** Instances used in the examples *)

(** A file read from the file system: its paths and contents, no cached
    metadata. *)
Definition fileAt (relative dirname : string) (contents : option string) : AtviseFile :=
  {| relative := relative; dirname := dirname; contents := contents;
     _dataType := None; _arrayType := None; _typeDefinition := None;
     stat_mtime := None |}.

(** Modelled from the spec: the table of well-known types ([Types.js] is not
    among the sources). An instance with the three extended types the spec
    names, whose type definitions [AtviseFile.js] tests in [isDisplay],
    [isScript] and [isQuickDynamic]: XML documents stored with the extension
    [xml]. *)
Definition sampleTypes : list AtviseType.t :=
  [ AtviseType.new (NodeId.ofString "VariableTypes.ATVISE.QuickDynamic")
      "qd" DataType.XmlElement (Some "xml") false;
    AtviseType.new (NodeId.ofString "VariableTypes.ATVISE.ScriptCode")
      "script" DataType.XmlElement (Some "xml") false;
    AtviseType.new (NodeId.ofString "VariableTypes.ATVISE.Display")
      "display" DataType.XmlElement (Some "xml") false ].

(** A time zone as ECMAScript 2017 defines [LocalTime] and [UTC], from the
    offset [LocalTZA] of standard time and the adjustment
    [DaylightSavingTA(t)]. *)
Definition zoneOf (LocalTZA : Z) (DaylightSavingTA : Z -> Z) : Js.Zone :=
  {| Js.LocalTime := fun t => (t + LocalTZA + DaylightSavingTA t)%Z;
     Js.UTC := fun t => (t - LocalTZA - DaylightSavingTA (t - LocalTZA))%Z |}.

(** Central European time in 2017: an hour ahead of UTC, and one more hour
    from 2017-03-26T01:00:00Z to 2017-10-29T01:00:00Z. *)
Definition Vienna2017 : Js.Zone :=
  zoneOf 3600000
    (fun t => if (1490490000000 <=? t)%Z && (t <? 1509238800000)%Z
              then 3600000%Z else 0%Z).

(** A time zone without any offset. *)
Definition Greenwich : Js.Zone := zoneOf 0 (fun _ => 0%Z).

(** The whole second a time lies in. *)
Definition wholeSecond (n : Z) : Z := (n - n mod 1000)%Z.

(** The zone agrees with the offset [off] at the time [n]: the local time
    of [n] is [n + off], and the whole second of that local time is the
    local time of the whole second of [n]. *)
Definition zoneOffsetAt (zone : Js.Zone) (off n : Z) : Prop :=
  Js.LocalTime zone n = (n + off)%Z /\
  Js.UTC zone (wholeSecond (n + off)) = (wholeSecond (n + off) - off)%Z.

(** An instance of the library functions: a resolved node id is known by the
    text it was resolved from; the texts that [JSON.parse] does not parse
    here are reported as syntax errors. *)
Definition sampleLibrary : Library :=
  {| resolveNodeId := fun text => Js.Ok {| Js.toString := text |};
     Buffer_fromArray := fun l => Js.bytes (map (fun _ => 0%nat) l);
     Date_toString := Js.getTime_toString;
     zone := Vienna2017;
     JSON_parse_other := fun _ => Js.Throw (Js.SyntaxError "Unexpected token in JSON") |}.

(** No dot occurs in the string. *)
Fixpoint dotFree (s : string) : bool :=
  match s with
  | EmptyString => true
  | String c r => negb (Ascii.eqb c ".") && dotFree r
  end.

(** None of the identifiers of the table is among the extensions. *)
Definition noIdentifierAmong (AtviseTypes : list AtviseType.t) (extensions : list string) : bool :=
  forallb (fun identifier => negb (Js.includes extensions (Some identifier)))
          (Js.keys (Js.own (AtviseTypesByIdentifier AtviseTypes))).

Definition isNone {A} (o : option A) : bool :=
  match o with
  | None => true
  | Some _ => false
  end.

(** Nothing of a path matches: no identifier of the table is among the
    extensions left by the consumption steps, and either no data type is
    known, or no type definition is and an extension other than [prop] is
    left. *)
Definition nothingMatches (AtviseTypes : list AtviseType.t) (this : AtviseFile) : bool :=
  let f := fst (consumeExtensions this) in
  let extensions := snd (consumeExtensions this) in
  noIdentifierAmong AtviseTypes extensions &&
  (isNone (_dataType f) ||
   (isNone (_typeDefinition f) &&
    negb (length extensions =? 0)%nat &&
    negb (bool_decide (lastOf extensions = Some "prop")))).

(** The extensions [pathForReadResult] appends for a variable or a property
    of a data type and an array type. *)
Definition suffixFor (property : bool) (dataType : DataType.t) (arrayType : VariantArrayType.t)
  : string :=
  (if property then "prop." else "") ++
  extensionForDataType dataType ++
  match arrayType with
  | VariantArrayType.Scalar => ""
  | VariantArrayType.Array => ".array"
  | VariantArrayType.Matrix => ".matrix"
  end.

(** ** Auxiliary definitions of the statements *)

(** The value of a decimal numeral read digit by digit from [acc]. *)
Fixpoint uintAcc (acc : Z) (u : Decimal.uint) : Z :=
  match u with
  | Decimal.Nil => acc
  | Decimal.D0 u => uintAcc (10 * acc + 0) u
  | Decimal.D1 u => uintAcc (10 * acc + 1) u
  | Decimal.D2 u => uintAcc (10 * acc + 2) u
  | Decimal.D3 u => uintAcc (10 * acc + 3) u
  | Decimal.D4 u => uintAcc (10 * acc + 4) u
  | Decimal.D5 u => uintAcc (10 * acc + 5) u
  | Decimal.D6 u => uintAcc (10 * acc + 6) u
  | Decimal.D7 u => uintAcc (10 * acc + 7) u
  | Decimal.D8 u => uintAcc (10 * acc + 8) u
  | Decimal.D9 u => uintAcc (10 * acc + 9) u
  end.

(** The characters a printed integer starts with. *)
Definition isNumberStart (c : ascii) : bool :=
  match Js.digitOf c with
  | Some _ => true
  | None => Ascii.eqb c "-"
  end.

(** The values [decodeValue] gives back as they were encoded: [null]; a
    Boolean; a string that is not empty and that [trim] leaves as it is; a
    date (its time value is [NaN] or a time in range); the two words of a
    64-bit integer; a byte string that is not empty. *)
Definition preserved (dt : DataType.t) : option (Val (rep dt)) -> Prop :=
  match dt with
  | DataType.Boolean =>
      fun v => match v with
               | None | Some (Scalar _) => True
               | Some (Elements _) => False
               end
  | DataType.String =>
      fun v => match v with
               | None => True
               | Some (Scalar s) => Js.trim s = s /\ s <> ""
               | Some (Elements _) => False
               end
  | DataType.DateTime =>
      fun v => match v with
               | None | Some (Scalar None) => True
               | Some (Scalar (Some t)) => (Z.abs t <= Js.maxTime)%Z
               | Some (Elements _) => False
               end
  | DataType.Int64 | DataType.UInt64 =>
      fun v => match v with
               | None | Some (Scalar _) => True
               | Some (Elements _) => False
               end
  | DataType.ByteString =>
      fun v => match v with
               | None => True
               | Some (Scalar b) => b <> ""
               | Some (Elements _) => False
               end
  | _ => fun v => v = None
  end.




(** Decoding the encoded contents gives the value back. *)
Definition roundTrips (lib : Library) (dt : DataType.t) (arrayType : VariantArrayType.t)
    (v : option (Val (rep dt))) : Prop :=
  exists buffer : string,
    encodeValue lib (OpcVariant.new dt arrayType v) = Js.Ok buffer /\
    decodeValue lib (Some buffer) dt = Js.Ok (valueOf dt v).

(** ** Runs of the watch task *)

Module WatchRun.
Import WatchTask.

(** What happens to a watch task: the two watchers report a change, and the
    push and pull streams call back. *)
Inductive Event :=
| FileChange (path : string) (mtime : Z)
| PushData (nodeId : NodeId.t)
| PushEnd
| ServerChange (nodeId : NodeId.t)
| PullEnd (mtime : Z).

Definition step (zone : Js.Zone) (e : Event) (this : t) : t * list Effect :=
  match e with
  | FileChange path mtime => handleFileChange zone path mtime this
  | PushData nodeId => (onPushData nodeId this, [])
  | PushEnd => onPushEnd this
  | ServerChange nodeId => handleServerChange nodeId this
  | PullEnd mtime => onPullEnd zone mtime this
  end.

(** The task after a sequence of events. *)
Definition run (zone : Js.Zone) (events : list Event) (this : t) : t :=
  fold_left (fun s e => fst (step zone e s)) events this.

(** A change on the server of a node printed otherwise than [text], or the
    end of a pull. *)
Definition concernsOther (text : string) (e : Event) : bool :=
  match e with
  | ServerChange nodeId => negb (String.eqb (NodeId.toString nodeId) text)
  | PullEnd _ => true
  | _ => false
  end.

End WatchRun.

(** One round of the [reduce] of [reverseObject]. *)
Definition reversalStep (obj result : Js.Dict string) (key : string) : Js.Dict string :=
  match Js.getOwn obj key with
  | Some v => Js.assign result v key
  | None => result
  end.

(** The swap of the keys and the values of an object. *)
Definition swapped (obj : Js.Dict string) : Js.Dict string :=
  map (fun entry => (snd entry, fst entry)) obj.

(** ** The type tests and the node id of a file *)

Section TypeTests.

Variable AtviseTypes : list AtviseType.t.

(** [this.typeDefinition.value === text] *)
Definition typeDefinitionIs (text : string) (this : AtviseFile) : Js.Outcome bool :=
  match fst (typeDefinition AtviseTypes this) with
  | Some td => Js.Ok (NodeId.strictEquals (NodeId.value td) (NodeId.Text text))
  | None => Js.Throw (Js.TypeError "Cannot read property 'value' of undefined")
  end.

(** The getters [isDisplay], [isScript] and [isQuickDynamic] *)
Definition isDisplay : AtviseFile -> Js.Outcome bool :=
  typeDefinitionIs "VariableTypes.ATVISE.Display".

Definition isScript : AtviseFile -> Js.Outcome bool :=
  typeDefinitionIs "VariableTypes.ATVISE.ScriptCode".

Definition isQuickDynamic : AtviseFile -> Js.Outcome bool :=
  typeDefinitionIs "VariableTypes.ATVISE.QuickDynamic".

(** [atType && atType.keepExtension] for the entry [atType] that
    [AtviseTypesByValue] has under the value of a type definition: the
    condition under which the getter [nodeId] keeps the path as it is. *)
Definition keepsExtension (typeDefinition : NodeId.t) : bool :=
  match Js.lookup AtviseType.member (AtviseTypesByValue AtviseTypes)
          (NodeId.key (NodeId.value typeDefinition)) with
  | Js.Own atType => AtviseType.keepExtension atType
  | Js.Inherited | Js.Undefined => false
  end.

End TypeTests.

(** * Properties *)

(** ** The embedding on the scenarios of the specification *)

Example trim_removes_white_space :
  Js.trim (Js.bytes [32; 9] ++ "a b" ++ Js.bytes [13; 10; 194; 160]) = "a b".
Proof. reflexivity. Qed.

Example parseInt_reads_a_prefix :
  Js.parseInt "  -120ms" = Some (-120)%Z /\ Js.parseInt "ms" = None.
Proof. split; reflexivity. Qed.

Example JSON_parse_nested :
  Js.JSON_parse (JSON_parse_other sampleLibrary) "[[0, 7], [1,2]]"
  = Js.Ok (Js.Array [Js.Array [Js.Number 0; Js.Number 7];
                     Js.Array [Js.Number 1; Js.Number 2]]).
Proof. reflexivity. Qed.

Example extension_of_nested_path :
  ExtensionRegExp_match "SYSTEM/a.b/Main.display.xml" = Some "display.xml" /\
  ExtensionRegExp_match "SYSTEM/a.b/Main" = None.
Proof. split; reflexivity. Qed.

(** A path ending in [.array] sets the array type and is stripped before
    further inference. *)
Example array_extension_is_consumed :
  let f := _getMetadata sampleTypes
             (fileAt "AGENT/OBJECTS/List.int32.array" "AGENT/OBJECTS" None) in
  _arrayType f = Some VariantArrayType.Array /\
  _dataType f = Some (DataType.Item DataType.Int32) /\
  _typeDefinition f = Some VariableTypeDefinition.
Proof. repeat split. Qed.

(** The extensions [.prop.string] give a property of data type String. *)
Example property_extension_is_consumed :
  let f := _getMetadata sampleTypes
             (fileAt "AGENT/OBJECTS/Motor.name.prop.string" "AGENT/OBJECTS" None) in
  _arrayType f = Some VariantArrayType.Scalar /\
  _dataType f = Some (DataType.Item DataType.String) /\
  _typeDefinition f = Some PropertyTypeDefinition.
Proof. repeat split. Qed.

(** A display and one of its split files, which takes the extension of its
    directory. *)
Example display_is_recognized :
  let display := NodeId.ofString "VariableTypes.ATVISE.Display" in
  let f := _getMetadata sampleTypes
             (fileAt "AGENT/DISPLAYS/Main.display.xml" "AGENT/DISPLAYS" None) in
  let g := _getMetadata sampleTypes
             (fileAt "AGENT/DISPLAYS/Main.display/Main.js" "AGENT/DISPLAYS/Main.display" None) in
  _dataType f = Some (DataType.Item DataType.XmlElement) /\ _typeDefinition f = Some display /\
  _dataType g = Some (DataType.Item DataType.XmlElement) /\ _typeDefinition g = Some display.
Proof. repeat split. Qed.

(** An extension named like a member of [Object.prototype] is consumed as a
    data type extension and gives no data type. *)
Example inherited_member_is_consumed :
  let f := fileAt "AGENT/OBJECTS/Main.constructor" "AGENT/OBJECTS" None in
  consumeExtensions f
  = (set_arrayType (Some VariantArrayType.Scalar) f, []) /\
  _dataType (_getMetadata sampleTypes f) = Some (DataType.Item DataType.ByteString) /\
  _typeDefinition (_getMetadata sampleTypes f) = Some OctetStreamTypeDefinition.
Proof. repeat split. Qed.

(** The paths of a display, of a custom type and of an array of properties. *)
Example paths_of_read_results :
  let readResult dataType arrayType typeDefinition :=
    {| ReadStream.nodeId := NodeId.ofString "AGENT.DISPLAYS.Main";
       ReadStream.value := Some (OpcVariant.new dataType arrayType None);
       ReadStream.referenceDescription := {| ReadStream.typeDefinition := typeDefinition |};
       ReadStream.mtime := None |} in
  pathForReadResult sampleTypes
    (readResult DataType.XmlElement VariantArrayType.Scalar
       (NodeId.ofString "VariableTypes.ATVISE.Display"))
  = Js.Ok "AGENT/DISPLAYS/Main.display.xml" /\
  pathForReadResult sampleTypes
    (readResult DataType.Double VariantArrayType.Scalar
       (NodeId.ofString "VariableTypes.PROJECT.Custom"))
  = Js.Ok "AGENT/DISPLAYS/Main.var.double" /\
  pathForReadResult sampleTypes
    (readResult DataType.UInt16 VariantArrayType.Matrix PropertyTypeDefinition)
  = Js.Ok "AGENT/DISPLAYS/Main.prop.uint16.matrix".
Proof. repeat split. Qed.

(** ** The fuel of [trim] suffices *)

Module TrimFacts.

Lemma startsWith_length (p s r : string) :
  Js.startsWith p s = Some r ->
  String.length s = (String.length p + String.length r)%nat.
Proof.
  revert s. induction p as [|a p IH]; intros s H.
  - simpl in H. injection H as ->. reflexivity.
  - destruct s as [|b s]; [discriminate H|]. simpl in H.
    destruct (Ascii.eqb a b); [|discriminate H].
    simpl. f_equal. apply IH. exact H.
Qed.

Lemma dropOne_shorter (tokens : list string) (s r : string) :
  Forall (fun t => t <> "") tokens ->
  Js.dropOne tokens s = Some r ->
  (String.length r < String.length s)%nat.
Proof.
  intros Hne. induction Hne as [|t ts Ht _ IH]; simpl; [discriminate|].
  destruct (Js.startsWith t s) as [r'|] eqn:E; [|exact IH].
  intros H. injection H as ->. apply startsWith_length in E.
  destruct t as [|a t]; [contradiction|]. simpl in E. lia.
Qed.

Lemma dropOne_empty (tokens : list string) :
  Forall (fun t => t <> "") tokens -> Js.dropOne tokens "" = None.
Proof.
  intros Hne. induction Hne as [|t ts Ht _ IH]; simpl; [reflexivity|].
  destruct t as [|a t]; [contradiction | exact IH].
Qed.

(** With fuel for every character, no token is left at the start. *)
Lemma dropAll_exhaustive (tokens : list string) (fuel : nat) (s : string) :
  Forall (fun t => t <> "") tokens ->
  (String.length s <= fuel)%nat ->
  Js.dropOne tokens (Js.dropAll fuel tokens s) = None.
Proof.
  intros Hne. revert s. induction fuel as [|fuel IH]; intros s Hl.
  - destruct s; [|simpl in Hl; lia]. simpl. apply dropOne_empty. exact Hne.
  - simpl. destruct (Js.dropOne tokens s) as [r|] eqn:E; [|exact E].
    apply IH. pose proof (dropOne_shorter tokens s r Hne E). lia.
Qed.

Lemma whiteSpace_not_empty : Forall (fun t => t <> "") Js.whiteSpace.
Proof. repeat constructor; discriminate. Qed.

Lemma reversed_whiteSpace_not_empty :
  Forall (fun t => t <> "") (map Js.reverse Js.whiteSpace).
Proof. repeat constructor; discriminate. Qed.

Lemma length_reverse (s : string) : String.length (Js.reverse s) = String.length s.
Proof.
  unfold Js.reverse.
  assert (H : forall l, String.length (string_of_list_ascii l) = length l).
  { induction l as [|a l IH]; simpl; [reflexivity | f_equal; exact IH]. }
  rewrite H, length_rev.
  clear H. induction s as [|a s IH]; simpl; [reflexivity | f_equal; exact IH].
Qed.

(** [trimStart] leaves no white space at the start. *)
Lemma trimStart_exhaustive (s : string) :
  Js.dropOne Js.whiteSpace (Js.trimStart s) = None.
Proof.
  unfold Js.trimStart. apply dropAll_exhaustive; [apply whiteSpace_not_empty | lia].
Qed.

(** [trimEnd] leaves no white space at the end: none at the start of the
    reversed text. *)
Lemma trimEnd_exhaustive (s : string) :
  exists r, Js.trimEnd s = Js.reverse r /\
            Js.dropOne (map Js.reverse Js.whiteSpace) r = None.
Proof.
  unfold Js.trimEnd. eexists. split; [reflexivity|].
  apply dropAll_exhaustive; [apply reversed_whiteSpace_not_empty|].
  rewrite length_reverse. lia.
Qed.

End TrimFacts.

(** ** Decoding absent contents *)

(** C9: for every data type, [decodeValue] returns [null] for absent
    ([null]) contents, exactly as it does for contents of length zero; so
    the value of a file without contents is [null], whatever its path. *)
Theorem decodeValue_null_contents (lib : Library) (dt : DataType.t) :
  decodeValue lib None dt = Js.Ok Js.Null /\
  decodeValue lib (Some (Buffer_from "")) dt = Js.Ok Js.Null /\
  decodeValue lib None dt = decodeValue lib (Some (Buffer_from "")) dt /\
  (forall (AtviseTypes : list AtviseType.t) (this : AtviseFile),
     contents this = None -> value lib AtviseTypes this = Js.Ok Js.Null).
Proof.
  repeat split. intros AtviseTypes this Hc. unfold value. rewrite Hc.
  destruct (fst (dataType AtviseTypes this)) as [[d| |]|]; reflexivity.
Qed.

(** ** Normalized modification times *)

Lemma seconds_floor (n : Z) : ((n - n mod 1000) = 1000 * (n / 1000))%Z.
Proof. pose proof (Z.div_mod n 1000). lia. Qed.


(** What [setMilliseconds(0)] makes of a local time: its whole second. *)
Lemma makeDate_whole_second (t : Z) :
  Js.makeDate (Js.day t)
    (Js.makeTime (Js.hourFromTime t) (Js.minFromTime t) (Js.secFromTime t) 0)
  = (t - t mod 1000)%Z.
Proof.
  unfold Js.makeDate, Js.makeTime, Js.day, Js.hourFromTime, Js.minFromTime, Js.secFromTime.
  change 60000%Z with (1000 * 60)%Z. change 3600000%Z with (1000 * 3600)%Z.
  change 86400000%Z with (1000 * 86400)%Z.
  rewrite <- !Z.div_div by lia.
  set (q := (t / 1000)%Z).
  assert (H1 : (q / 3600 = q / 60 / 60)%Z) by (rewrite Z.div_div by lia; reflexivity).
  assert (H2 : (q / 86400 = q / 60 / 60 / 24)%Z)
    by (rewrite !Z.div_div by lia; reflexivity).
  rewrite H1, H2.
  pose proof (Z.div_mod t 1000). pose proof (Z.div_mod q 60).
  pose proof (Z.div_mod (q / 60) 60). pose proof (Z.div_mod (q / 60 / 60) 24).
  subst q. lia.
Qed.

Lemma setMilliseconds0_valid (zone : Js.Zone) (n : Z) :
  Js.setMilliseconds0 zone (Some n)
  = Js.Date_new (Some (Js.UTC zone (wholeSecond (Js.LocalTime zone n)))).
Proof.
  unfold Js.setMilliseconds0, wholeSecond. cbv zeta.
  rewrite makeDate_whole_second. reflexivity.
Qed.

(** Where the zone agrees with an offset of whole seconds, the date is set
    to the whole second of its time value. *)
Lemma setMilliseconds0_at_offset (zone : Js.Zone) (off n : Z) :
  (off mod 1000 = 0)%Z ->
  zoneOffsetAt zone off n ->
  Js.setMilliseconds0 zone (Some n) = Js.Date_new (Some (wholeSecond n)).
Proof.
  intros Hoff [Hl Hu]. rewrite setMilliseconds0_valid, Hl, Hu.
  do 2 f_equal. unfold wholeSecond.
  rewrite Z.add_mod, Hoff, Z.add_0_r, Z.mod_mod by lia. lia.
Qed.




(** ** Echo suppression of the watch task *)

Module WatchTaskFacts.
Import WatchTask.

(** A push of a file of node [N] leaves the task not pushing, with [N]
    recorded as the last pushed node. *)
Lemma push_records_node
    (zone : Js.Zone) (path : string) (mtime : Z) (N : NodeId.t) (s : t) :
  _pulling s = false ->
  greater (normalizedTime zone mtime) (_lastPull s) = true ->
  let s1 := fst (handleFileChange zone path mtime s) in
  let s3 := fst (onPushEnd (onPushData N s1)) in
  snd (handleFileChange zone path mtime s) = [StartPush path] /\
  _pushing s1 = true /\
  _pushing s3 = false /\
  _lastPushed s3 = Some (NodeId.toString N).
Proof.
  intros Hp Hl. unfold handleFileChange. rewrite Hp, Hl. simpl. repeat split.
Qed.

(** While pushing, a change on the server starts no pull. *)
Lemma server_change_while_pushing (N : NodeId.t) (s : t) :
  _pushing s = true -> handleServerChange N s = (s, [Resolve false]).
Proof. intros H. unfold handleServerChange. rewrite H. reflexivity. Qed.

(** C4: echo suppression is consumed exactly once. When node [N] is
    recorded as the last pushed node and the task is not pushing, the first
    change of [N] on the server starts no pull and clears the record; the
    second change of [N] starts a pull. *)
Theorem echo_suppressed_once (N : NodeId.t) (s : t) :
  _pushing s = false ->
  _lastPushed s = Some (NodeId.toString N) ->
  let first := handleServerChange N s in
  let second := handleServerChange N (fst first) in
  snd first = [Resolve false] /\
  startsPull (snd first) = false /\
  _lastPushed (fst first) = None /\
  _pulling (fst first) = _pulling s /\
  snd second = [StartPull (NodeId.toString N)] /\
  startsPull (snd second) = true /\
  _pulling (fst second) = true.
Proof.
  intros Hp Hl. cbv zeta.
  assert (Hfirst : handleServerChange N s =
                   ({| _pulling := _pulling s; _pushing := _pushing s;
                       _lastPull := _lastPull s; _lastPushed := None |},
                    [Resolve false])).
  { unfold handleServerChange. rewrite Hp, Hl.
    rewrite bool_decide_eq_true_2 by reflexivity. reflexivity. }
  rewrite Hfirst. unfold handleServerChange. simpl. rewrite Hp. simpl.
  repeat split.
Qed.

(** A new task pushes a changed file of [AGENT.DISPLAYS.Main], then hears
    twice of that node from the server. *)
Lemma echo_suppressed_once_witness :
  let N := NodeId.ofString "AGENT.DISPLAYS.Main" in
  let pushed :=
    fst (onPushEnd (onPushData N
           (fst (handleFileChange Vienna2017 "AGENT/DISPLAYS/Main.bool" 5000 constructor)))) in
  snd (handleServerChange N pushed) = [Resolve false] /\
  snd (handleServerChange N (fst (handleServerChange N pushed)))
  = [StartPull "ns=1;s=AGENT.DISPLAYS.Main"].
Proof.
  pose proof (echo_suppressed_once
                (NodeId.ofString "AGENT.DISPLAYS.Main")
                (fst (onPushEnd (onPushData (NodeId.ofString "AGENT.DISPLAYS.Main")
                   (fst (handleFileChange Vienna2017 "AGENT/DISPLAYS/Main.bool" 5000
                          constructor)))))
                eq_refl eq_refl) as H.
  cbv zeta in *. destruct H as (H1 & _ & _ & _ & H5 & _).
  split; [exact H1 | exact H5].
Defined.

End WatchTaskFacts.

(** ** Composition of the transformers *)

Module TransformerFacts.
Import Transformer.

Section Composition.

Variable File : Type.

Lemma fold_pipe (d : TransformDirection) (ts : list (t File)) (stream : Stream File) :
  fold_left (fun stream transformer => pipe stream (withDirection d transformer)) ts stream
  = (stream ++ map (withDirection d) ts)%list.
Proof.
  revert stream. induction ts as [|a ts IH]; intros stream; simpl.
  - symmetry. apply app_nil_r.
  - rewrite IH. unfold pipe. rewrite <- app_assoc. reflexivity.
Qed.

(** For every list, the stream is made of the transformers bound to the
    direction, in the configured order for [FromDB] and in the reversed
    order for [FromFilesystem]. *)
Lemma applyTransformers_stages (d : TransformDirection) (ts : list (t File)) :
  applyTransformers ts (Direction d)
  = Js.Ok (map (withDirection d)
               match d with
               | FromFilesystem => rev ts
               | FromDB => ts
               end).
Proof.
  destruct ts as [|a [|b ts]].
  - destruct d; reflexivity.
  - destruct d; reflexivity.
  - unfold applyTransformers. rewrite fold_pipe. reflexivity.
Qed.

Lemma transform_bound_FromDB (A : t File) (file : File) :
  _transform (withDirection FromDB A) file = transformFromDB A file.
Proof. reflexivity. Qed.

Lemma transform_bound_FromFilesystem (A : t File) (file : File) :
  _transform (withDirection FromFilesystem A) file = transformFromFilesystem A file.
Proof. reflexivity. Qed.

Lemma each_ext (f g : File -> Js.Outcome (list File)) (files : list File) :
  (forall file, f file = g file) -> each f files = each g files.
Proof.
  intros H. induction files as [|x xs IH]; simpl; [reflexivity|].
  rewrite H, IH. reflexivity.
Qed.

Lemma run_two (S1 S2 : t File) (files : list File) :
  run [S1; S2] files
  = (files' <- each (_transform S1) files ;; each (_transform S2) files').
Proof.
  simpl. unfold runStage. destruct (each (_transform S1) files) as [fs|e]; simpl.
  - destruct (each (_transform S2) fs); reflexivity.
  - reflexivity.
Qed.

(** C5: composing no transformer gives a stream that passes the files
    through; composing [[A; B]] for [FromDB] (from the remote side to the
    file system) processes the files with [A], then with [B]; for
    [FromFilesystem] the order is reversed: [B], then [A]. Every stage is
    bound to the direction and uses its method. *)
Theorem pipeline_composition (A B : t File) (files : list File) :
  (forall d : TransformDirection,
     applyTransformers (@nil (t File)) (Direction d) = Js.Ok createStream /\
     run (@createStream File) files = Js.Ok files) /\
  (exists stream : Stream File,
     applyTransformers [A; B] (Direction FromDB) = Js.Ok stream /\
     stream = [withDirection FromDB A; withDirection FromDB B] /\
     map direction stream = [Some FromDB; Some FromDB] /\
     run stream files
     = (files' <- each (transformFromDB A) files ;; each (transformFromDB B) files')) /\
  (exists stream : Stream File,
     applyTransformers [A; B] (Direction FromFilesystem) = Js.Ok stream /\
     stream = [withDirection FromFilesystem B; withDirection FromFilesystem A] /\
     map direction stream = [Some FromFilesystem; Some FromFilesystem] /\
     run stream files
     = (files' <- each (transformFromFilesystem B) files ;;
        each (transformFromFilesystem A) files')).
Proof.
  split; [|split].
  - intros d. split; reflexivity.
  - eexists. split; [apply applyTransformers_stages|].
    split; [reflexivity|]. split; [reflexivity|].
    simpl map. rewrite run_two.
    rewrite (each_ext _ _ files (transform_bound_FromDB A)).
    destruct (each (transformFromDB A) files) as [fs|e]; simpl; [|reflexivity].
    apply each_ext, transform_bound_FromDB.
  - eexists. split; [apply applyTransformers_stages|].
    split; [reflexivity|]. split; [reflexivity|].
    simpl map. simpl rev. rewrite run_two.
    rewrite (each_ext _ _ files (transform_bound_FromFilesystem B)).
    destruct (each (transformFromFilesystem B) files) as [fs|e]; simpl; [|reflexivity].
    apply each_ext, transform_bound_FromFilesystem.
Qed.

End Composition.

End TransformerFacts.

(** ** Extension inference *)

Section MetadataFacts.

Variable AtviseTypes : list AtviseType.t.

Lemma includes_removelast (l : list string) (x : string) :
  Js.includes l (Some x) = false -> Js.includes (removelast l) (Some x) = false.
Proof.
  simpl. induction l as [|a l IH]; [reflexivity|].
  destruct l as [|b l]; [reflexivity|].
  intros H. change (removelast (a :: b :: l)) with (a :: removelast (b :: l)).
  simpl in H |- *. apply orb_false_iff in H as [Ha Hl].
  rewrite Ha. simpl. apply IH. exact Hl.
Qed.

Lemma noIdentifierAmong_removelast (extensions : list string) :
  noIdentifierAmong AtviseTypes extensions = true ->
  noIdentifierAmong AtviseTypes (removelast extensions) = true.
Proof.
  unfold noIdentifierAmong. rewrite !forallb_forall. intros H x Hx.
  specialize (H x Hx). apply negb_true_iff in H. apply negb_true_iff.
  apply includes_removelast. exact H.
Qed.

(** The scan of the table finds nothing when no identifier is among the
    extensions. *)
Lemma handleAtviseTypes_nothing (extensions : list string) (this : AtviseFile) :
  noIdentifierAmong AtviseTypes extensions = true ->
  handleAtviseTypes AtviseTypes extensions this = this.
Proof.
  unfold handleAtviseTypes, noIdentifierAmong, Js.keys.
  generalize (Js.own (AtviseTypesByIdentifier AtviseTypes)) as dict.
  induction dict as [|[identifier type] dict IH]; intros H; [reflexivity|].
  simpl in H. apply andb_true_iff in H as [Hid Hrest].
  apply negb_true_iff in Hid. cbn [fold_left].
  change (Js.includes extensions (Some identifier)) with
    (existsb (String.eqb identifier) extensions).
  rewrite Hid. simpl. apply IH. exact Hrest.
Qed.

Lemma scan_keeps (extensions : list string) (dict : Js.Dict AtviseType.t)
    (found : bool) (this : AtviseFile) :
  _arrayType (snd (fold_left
    (fun (acc : bool * AtviseFile) (entry : string * AtviseType.t) =>
       let '(foundAtType, this) := acc in
       let '(identifier, type) := entry in
       if negb foundAtType && Js.includes extensions (Some identifier)
       then (true,
             set_dataType (Some (DataType.Item (AtviseType.dataType type)))
               (set_typeDefinition (Some (AtviseType.typeDefinition type)) this))
       else acc)
    dict (found, this))) = _arrayType this.
Proof.
  revert found this.
  induction dict as [|[identifier type] dict IH]; intros found this; [reflexivity|].
  cbn [fold_left].
  destruct (negb found && Js.includes extensions (Some identifier)).
  - rewrite IH. reflexivity.
  - apply IH.
Qed.

(** The scan leaves the array type as it is. *)
Lemma handleAtviseTypes_arrayType (extensions : list string) (this : AtviseFile) :
  _arrayType (handleAtviseTypes AtviseTypes extensions this) = _arrayType this.
Proof. apply scan_keeps. Qed.

Lemma complete_after_fallback (this : AtviseFile) :
  complete
    (if negb (complete this)
     then set_dataType (Some (DataType.Item DataType.ByteString))
            (set_typeDefinition (Some OctetStreamTypeDefinition) this)
     else this) = true.
Proof. destruct (complete this) eqn:E; simpl; [exact E | reflexivity]. Qed.

Lemma resolveTypeDefinition_complete (st : AtviseFile * list string) :
  complete (resolveTypeDefinition AtviseTypes st) = true.
Proof.
  destruct st as [this extensions]. unfold resolveTypeDefinition.
  destruct (ifLastExtensionMatches _ _ _) as [this' extensions'].
  apply complete_after_fallback.
Qed.

Lemma ifLastExtensionMatches_arrayType
    (matches : option string -> bool) (fn : option string -> AtviseFile -> AtviseFile)
    (st : AtviseFile * list string) :
  (forall ext f, _arrayType (fn ext f) = _arrayType f) ->
  _arrayType (fst (ifLastExtensionMatches matches fn st)) = _arrayType (fst st).
Proof.
  intros H. destruct st as [this extensions]. unfold ifLastExtensionMatches.
  destruct (matches (lastOf extensions)); simpl; [apply H | reflexivity].
Qed.

Lemma resolveTypeDefinition_arrayType (st : AtviseFile * list string) :
  _arrayType (resolveTypeDefinition AtviseTypes st) = _arrayType (fst st).
Proof.
  destruct st as [this extensions]. unfold resolveTypeDefinition.
  pose proof (ifLastExtensionMatches_arrayType
    (fun ext => bool_decide (ext = Some "prop"))
    (fun _ => set_typeDefinition (Some (NodeId.new NodeId.NUMERIC (NodeId.Numeric 68) 0)))
    (if (length extensions =? 0)%nat
     then set_typeDefinition (Some (NodeId.new NodeId.NUMERIC (NodeId.Numeric 62) 0)) this
     else this, extensions)) as Hp.
  destruct (ifLastExtensionMatches _ _ _) as [this' extensions'].
  simpl in Hp. specialize (Hp (fun _ _ => eq_refl)).
  assert (Ha : _arrayType this' = _arrayType this).
  { rewrite Hp. destruct (length extensions =? 0)%nat; reflexivity. }
  match goal with
  | |- _arrayType (if negb (complete ?x) then _ else _) = _ => set (scanned := x)
  end.
  assert (Hx : _arrayType scanned = _arrayType this').
  { subst scanned. destruct (complete this'); simpl; [reflexivity|]. apply scan_keeps. }
  clearbody scanned. change (_arrayType (fst (this, extensions))) with (_arrayType this).
  destruct (complete scanned); cbn [negb]; [congruence|].
  change (_arrayType scanned = _arrayType this). congruence.
Qed.

Lemma consumeExtensions_arrayType (this : AtviseFile) :
  exists a, _arrayType (fst (consumeExtensions this)) = Some a.
Proof.
  unfold consumeExtensions.
  rewrite !ifLastExtensionMatches_arrayType by reflexivity.
  match goal with
  | |- context [ifLastExtensionMatches ?m ?fn (ifLastExtensionMatches ?m' ?fn' ?st)] =>
      set (inner := ifLastExtensionMatches m' fn' st)
  end.
  unfold ifLastExtensionMatches at 1. destruct inner as [f1 e1] eqn:E1.
  destruct (bool_decide _); simpl; [eexists; reflexivity|].
  assert (Hf : f1 = fst inner) by (rewrite E1; reflexivity).
  subst inner. rewrite Hf. unfold ifLastExtensionMatches.
  destruct (bool_decide _); simpl; eexists; reflexivity.
Qed.

(** The inference returns for every file, whatever its relative path and
    directory name (the embedding has no statement that can throw), and
    leaves none of the three fields [undefined]: the array type and the type
    definition are an array type and a node id, and the data type is a
    member of [DataType]; when nothing matches, it is the byte string data
    type, with the type definition of the generic binary resource. *)
Theorem getMetadata_total (this : AtviseFile) :
  let f := _getMetadata AtviseTypes this in
  (exists dataType arrayType typeDefinition,
     _dataType f = Some dataType /\
     _arrayType f = Some arrayType /\
     _typeDefinition f = Some typeDefinition) /\
  (nothingMatches AtviseTypes this = true ->
     _dataType f = Some (DataType.Item DataType.ByteString) /\
     _typeDefinition f = Some OctetStreamTypeDefinition).
Proof.
  cbv zeta. split.
  - pose proof (resolveTypeDefinition_complete (consumeExtensions this)) as Hc.
    pose proof (resolveTypeDefinition_arrayType (consumeExtensions this)) as Ha.
    destruct (consumeExtensions_arrayType this) as [a Hs].
    unfold _getMetadata. unfold complete in Hc.
    destruct (_dataType _) as [d|]; [|discriminate].
    destruct (_typeDefinition _) as [t|]; [|discriminate].
    exists d, a, t. repeat split. congruence.
  - unfold nothingMatches, _getMetadata.
    destruct (consumeExtensions this) as [f1 extensions]. simpl.
    intros H. apply andb_true_iff in H as [Hno Hcond].
    unfold resolveTypeDefinition, ifLastExtensionMatches.
    apply orb_true_iff in Hcond as [Hd | Ht].
    + (* no data type is known *)
      destruct (_dataType f1) as [d|] eqn:Ed; [discriminate|].
      destruct (length extensions =? 0)%nat;
        destruct (bool_decide (lastOf extensions = Some "prop"));
        unfold complete; cbn [_dataType _typeDefinition set_typeDefinition fst snd];
        rewrite ?Ed; cbn [negb];
        rewrite handleAtviseTypes_nothing
          by (first [apply noIdentifierAmong_removelast; exact Hno | exact Hno]);
        cbn [_dataType _typeDefinition set_typeDefinition]; rewrite ?Ed;
        split; reflexivity.
    + (* no type definition is known and an extension other than prop is left *)
      apply andb_true_iff in Ht as [Ht Hprop].
      apply andb_true_iff in Ht as [Ht Hlen].
      apply negb_true_iff in Hlen. apply negb_true_iff in Hprop.
      rewrite Hlen, Hprop.
      destruct (_typeDefinition f1) as [t|] eqn:Et; [discriminate|].
      unfold complete. rewrite Et.
      destruct (_dataType f1) as [d|] eqn:Ed; cbn [negb];
        rewrite handleAtviseTypes_nothing by exact Hno; rewrite ?Ed, ?Et;
        split; reflexivity.
Qed.

(** C3: the inference does not always give a data type. [types], which
    the code documents as the names of the data types, is
    [Object.keys(DataType)], and that object has other keys than the names:
    for a path with the extension [_is_flaggable] the inference stores the
    flag [false] as the data type (with the type definition of variables),
    for the extension [enums] the array of the items, and no fallback
    follows, since a data type and a type definition are set. The value of
    such a file is decoded as a buffer. *)
Lemma getMetadata_stores_no_data_type :
  let f := _getMetadata sampleTypes
             (fileAt "AGENT/OBJECTS/Main._is_flaggable" "AGENT/OBJECTS" None) in
  let g := _getMetadata sampleTypes
             (fileAt "AGENT/OBJECTS/Main.enums" "AGENT/OBJECTS" None) in
  Js.includes typeExtensions (Some "_is_flaggable") = true /\
  dataTypeOfTypeExtension (Some "_is_flaggable") = Some DataType.IsFlaggable /\
  _dataType f = Some DataType.IsFlaggable /\
  (forall d : DataType.t, _dataType f <> Some (DataType.Item d)) /\
  _arrayType f = Some VariantArrayType.Scalar /\
  _typeDefinition f = Some VariableTypeDefinition /\
  _dataType g = Some DataType.Enums /\
  (forall d : DataType.t, _dataType g <> Some (DataType.Item d)) /\
  _typeDefinition g = Some VariableTypeDefinition /\
  value sampleLibrary sampleTypes
    (fileAt "AGENT/OBJECTS/Main._is_flaggable" "AGENT/OBJECTS" (Some "true"))
  = Js.Ok (Js.Buffer "true").
Proof. cbv zeta. repeat split; try discriminate; vm_compute; reflexivity. Qed.

Example nothing_matches_unknown_suffix :
  nothingMatches sampleTypes (fileAt "SYSTEM/notes.xyz" "SYSTEM" None) = true /\
  _dataType (_getMetadata sampleTypes (fileAt "SYSTEM/notes.xyz" "SYSTEM" None))
  = Some (DataType.Item DataType.ByteString).
Proof. split; reflexivity. Qed.

(** *** Paths made of a base without dots and a suffix *)

Lemma append_assoc (a b c : string) : (a ++ b) ++ c = a ++ (b ++ c).
Proof.
  induction a as [|x a IH]; [reflexivity|].
  change (String x ((a ++ b) ++ c) = String x (a ++ b ++ c)).
  rewrite IH. reflexivity.
Qed.

Lemma ExtensionRegExp_match_suffix (base suffix : string) :
  dotFree base = true ->
  noSeparator suffix = true ->
  ExtensionRegExp_match (base ++ String "." suffix) = Some suffix.
Proof.
  intros Hb Hs. induction base as [|c base IH]; simpl.
  - rewrite Hs. reflexivity.
  - simpl in Hb. apply andb_true_iff in Hb as [Hc Hb].
    apply negb_true_iff in Hc. rewrite Hc. simpl. apply IH. exact Hb.
Qed.

Lemma ExtensionRegExp_match_dotFree (s : string) :
  dotFree s = true -> ExtensionRegExp_match s = None.
Proof.
  induction s as [|c s IH]; simpl; [reflexivity|].
  intros H. apply andb_true_iff in H as [Hc Hs].
  apply negb_true_iff in Hc. rewrite Hc. simpl. apply IH. exact Hs.
Qed.

Lemma splitAt_dotFree_length (s cur : string) :
  dotFree s = true -> length (Js.splitAt "." cur s) = 1%nat.
Proof.
  revert cur. induction s as [|c s IH]; intros cur; simpl; [reflexivity|].
  intros H. apply andb_true_iff in H as [Hc Hs].
  apply negb_true_iff in Hc. rewrite Hc. apply IH. exact Hs.
Qed.

Lemma split_dotFree_single (s : string) :
  dotFree s = true -> (1 <? length (Js.split "." s))%nat = false.
Proof.
  intros H. unfold Js.split. rewrite splitAt_dotFree_length by assumption.
  reflexivity.
Qed.

(** A file [base.suffix] in a directory without dots has the extensions of
    its suffix. *)
Lemma extensionsOf_suffix (base suffix d : string) (f : AtviseFile) :
  relative f = base ++ String "." suffix ->
  dirname f = d ->
  dotFree base = true ->
  dotFree d = true ->
  noSeparator suffix = true ->
  extensionsOf f = Js.split "." suffix.
Proof.
  intros Hr Hd Hb Hdd Hs. unfold extensionsOf. rewrite Hr, Hd.
  rewrite ExtensionRegExp_match_suffix by assumption.
  rewrite split_dotFree_single by assumption.
  reflexivity.
Qed.

(** A file without any dot in its name and its directory has no extension. *)
Lemma extensionsOf_dotFree (f : AtviseFile) :
  dotFree (relative f) = true ->
  dotFree (dirname f) = true ->
  extensionsOf f = [].
Proof.
  intros Hr Hd. unfold extensionsOf.
  rewrite ExtensionRegExp_match_dotFree by assumption.
  rewrite split_dotFree_single by assumption. reflexivity.
Qed.

(** Every file without a dot in its path and its directory, and without a
    cached data type, is inferred as the generic binary resource. *)
Lemma without_extension_is_resource (this : AtviseFile) :
  dotFree (relative this) = true ->
  dotFree (dirname this) = true ->
  _dataType this = None ->
  _typeDefinition (_getMetadata AtviseTypes this) = Some OctetStreamTypeDefinition /\
  _dataType (_getMetadata AtviseTypes this) = Some (DataType.Item DataType.ByteString).
Proof.
  intros Hr Hd Hn. unfold _getMetadata, consumeExtensions.
  rewrite extensionsOf_dotFree by assumption.
  unfold ifLastExtensionMatches, resolveTypeDefinition, complete. simpl.
  rewrite Hn. simpl. rewrite handleAtviseTypes_nothing.
  - simpl. rewrite Hn. split; reflexivity.
  - unfold noIdentifierAmong. apply forallb_forall. reflexivity.
Qed.

(** *** Files whose extensions are all consumed *)

(** C7 as the specification states it fails for a path without any
    extension: no extension is left, and the inferred type definition is the
    one of the generic binary resource, not the one of variables. *)
Lemma no_extension_is_not_variable :
  let f := fileAt "AGENT/DISPLAYS/Main" "AGENT/DISPLAYS" None in
  snd (consumeExtensions f) = [] /\
  _typeDefinition (_getMetadata sampleTypes f) = Some OctetStreamTypeDefinition /\
  _dataType (_getMetadata sampleTypes f) = Some (DataType.Item DataType.ByteString) /\
  _typeDefinition (_getMetadata sampleTypes f) <> Some VariableTypeDefinition.
Proof. cbv zeta. repeat split. discriminate. Qed.

(** C7, as amended: when no extension is left after the consumption of the
    array and data type extensions and the data type is known, the inferred
    type definition is the one of variables and the data type is kept; when
    the data type is not known (as for a path without any extension), the
    file is the generic binary resource with the byte string data type. *)
Theorem variable_when_extensions_consumed (this : AtviseFile) :
  snd (consumeExtensions this) = [] ->
  let known := _dataType (fst (consumeExtensions this)) in
  let f := _getMetadata AtviseTypes this in
  (forall dataType : DataType.Member,
     known = Some dataType ->
     _typeDefinition f = Some VariableTypeDefinition /\ _dataType f = Some dataType) /\
  (known = None ->
     _typeDefinition f = Some OctetStreamTypeDefinition /\
     _dataType f = Some (DataType.Item DataType.ByteString)).
Proof.
  intros He. cbv zeta. unfold _getMetadata.
  destruct (consumeExtensions this) as [f1 extensions]. simpl in He. subst extensions.
  cbn [fst]. unfold resolveTypeDefinition, ifLastExtensionMatches.
  cbn [length Nat.eqb lastOf map List.last].
  rewrite bool_decide_eq_false_2 by discriminate.
  unfold complete. simpl.
  split.
  - intros dataType Hk. rewrite Hk. simpl. rewrite ?Hk.
    split; simpl; [reflexivity | exact Hk].
  - intros Hk. rewrite Hk. simpl.
    rewrite handleAtviseTypes_nothing.
    + simpl. rewrite Hk. simpl. split; reflexivity.
    + unfold noIdentifierAmong. apply forallb_forall. reflexivity.
Qed.

End MetadataFacts.

(** A Boolean variable, and a file without extension. *)
Lemma variable_when_extensions_consumed_witness :
  let typed := fileAt "AGENT/DISPLAYS/Main.bool" "AGENT/DISPLAYS" None in
  let bare := fileAt "AGENT/DISPLAYS/Main" "AGENT/DISPLAYS" None in
  snd (consumeExtensions typed) = [] /\
  _typeDefinition (_getMetadata sampleTypes typed) = Some VariableTypeDefinition /\
  snd (consumeExtensions bare) = [] /\
  _typeDefinition (_getMetadata sampleTypes bare) = Some OctetStreamTypeDefinition.
Proof.
  cbv zeta.
  pose proof (variable_when_extensions_consumed sampleTypes
                (fileAt "AGENT/DISPLAYS/Main.bool" "AGENT/DISPLAYS" None) eq_refl) as Ht.
  pose proof (variable_when_extensions_consumed sampleTypes
                (fileAt "AGENT/DISPLAYS/Main" "AGENT/DISPLAYS" None) eq_refl) as Hb.
  cbv zeta in Ht, Hb.
  split; [reflexivity|].
  split; [exact (proj1 (proj1 Ht (DataType.Item DataType.Boolean) eq_refl))|].
  split; [reflexivity|]. exact (proj1 (proj2 Hb eq_refl)).
Defined.

(** ** Storage paths and their inference *)

Section PathFacts.

Variable lib : Library.
Variable AtviseTypes : list AtviseType.t.

Lemma suffixFor_noSeparator (property : bool) (dataType : DataType.t)
    (arrayType : VariantArrayType.t) :
  noSeparator (suffixFor property dataType arrayType) = true.
Proof. destruct property, dataType, arrayType; reflexivity. Qed.


(** The inference on such a path, for a file in a directory without dots. *)
Lemma getMetadata_of_suffix
    (base d : string) (contents : option string)
    (dataType : DataType.t) (arrayType : VariantArrayType.t) (property : bool) :
  dotFree base = true ->
  dotFree d = true ->
  let f := _getMetadata AtviseTypes
             (fileAt (base ++ String "." (suffixFor property dataType arrayType)) d contents) in
  _dataType f = Some (DataType.Item dataType) /\
  _arrayType f = Some arrayType /\
  _typeDefinition f
  = Some (if property then PropertyTypeDefinition else VariableTypeDefinition).
Proof.
  intros Hb Hd. cbv zeta. unfold _getMetadata, consumeExtensions.
  rewrite (extensionsOf_suffix base (suffixFor property dataType arrayType) d)
    by (first [reflexivity | assumption | apply suffixFor_noSeparator]).
  destruct property, dataType, arrayType; vm_compute; repeat split.
Qed.

(** *** The path of a node id has no dot *)







(** *** The inference reads the extensions only *)
















End PathFacts.




(** ** The scenario of a Boolean variable *)

Section Scenario.

Variable lib : Library.
Variable AtviseTypes : list AtviseType.t.

(** C6: the read result of the Boolean scalar variable
    [AGENT.DISPLAYS.Main] with the value [false] maps to the path
    [AGENT/DISPLAYS/Main.bool] with the contents [false]; a file at
    [AGENT/DISPLAYS/Main.bool] with the contents [true] gives back the value
    [true], the data type Boolean and the node id [AGENT.DISPLAYS.Main].
    The table holds no type under the id of variables, and the file lies in
    a directory without dots. *)
Theorem scenario_boolean_variable (d : string) (h : gmap positive Js.TimeValue) :
  Js.getOwn (Js.own (AtviseTypesByValue AtviseTypes)) "62" = None ->
  dotFree d = true ->
  let variant :=
    OpcVariant.new DataType.Boolean VariantArrayType.Scalar (Some (Scalar false)) in
  let readResult :=
    {| ReadStream.nodeId := NodeId.ofString "AGENT.DISPLAYS.Main";
       ReadStream.value := Some variant;
       ReadStream.referenceDescription :=
         {| ReadStream.typeDefinition := VariableTypeDefinition |};
       ReadStream.mtime := None |} in
  let file := fileAt "AGENT/DISPLAYS/Main.bool" d (Some "true") in
  pathForReadResult AtviseTypes readResult = Js.Ok "AGENT/DISPLAYS/Main.bool" /\
  encodeValue lib variant = Js.Ok "false" /\
  (exists created,
     fromReadResult lib AtviseTypes readResult h = Js.Ok (created, h) /\
     relative created = "AGENT/DISPLAYS/Main.bool" /\
     contents created = Some "false") /\
  fst (dataType AtviseTypes file) = Some (DataType.Item DataType.Boolean) /\
  value lib AtviseTypes file = Js.Ok (Js.Bool true) /\
  nodeId AtviseTypes file = Js.Ok (NodeId.ofString "AGENT.DISPLAYS.Main").
Proof.
  intros Hreg Hd. cbv zeta.
  pose proof (getMetadata_of_suffix AtviseTypes "AGENT/DISPLAYS/Main" d (Some "true")
                DataType.Boolean VariantArrayType.Scalar false eq_refl Hd) as Hm.
  cbv zeta in Hm.
  change ("AGENT/DISPLAYS/Main" ++
          String "." (suffixFor false DataType.Boolean VariantArrayType.Scalar))
    with "AGENT/DISPLAYS/Main.bool" in Hm.
  destruct Hm as (Hdt & _ & Htd).
  split; [reflexivity|]. split; [reflexivity|].
  split; [eexists; split; [reflexivity|split; reflexivity]|].
  assert (Hdata : fst (dataType AtviseTypes
                         (fileAt "AGENT/DISPLAYS/Main.bool" d (Some "true")))
                  = Some (DataType.Item DataType.Boolean)) by exact Hdt.
  split; [exact Hdata|]. split.
  - unfold value. rewrite Hdata. reflexivity.
  - unfold nodeId.
    assert (Htype : fst (typeDefinition AtviseTypes
                           (fileAt "AGENT/DISPLAYS/Main.bool" d (Some "true")))
                    = Some VariableTypeDefinition) by exact Htd.
    rewrite Htype. unfold Js.lookup.
    change (NodeId.key (NodeId.value VariableTypeDefinition)) with "62".
    rewrite Hreg. destruct (Js.proto (AtviseTypesByValue AtviseTypes)); reflexivity.
Qed.

End Scenario.

(** The scenario with the sample table, for a file of a project directory. *)
Lemma scenario_boolean_variable_witness :
  pathForReadResult sampleTypes
    {| ReadStream.nodeId := NodeId.ofString "AGENT.DISPLAYS.Main";
       ReadStream.value :=
         Some (OpcVariant.new DataType.Boolean VariantArrayType.Scalar (Some (Scalar false)));
       ReadStream.referenceDescription :=
         {| ReadStream.typeDefinition := VariableTypeDefinition |};
       ReadStream.mtime := None |}
  = Js.Ok "AGENT/DISPLAYS/Main.bool" /\
  value sampleLibrary sampleTypes
    (fileAt "AGENT/DISPLAYS/Main.bool" "/project/src/AGENT/DISPLAYS" (Some "true"))
  = Js.Ok (Js.Bool true) /\
  nodeId sampleTypes
    (fileAt "AGENT/DISPLAYS/Main.bool" "/project/src/AGENT/DISPLAYS" (Some "true"))
  = Js.Ok (NodeId.ofString "AGENT.DISPLAYS.Main").
Proof.
  pose proof (scenario_boolean_variable sampleLibrary sampleTypes
                "/project/src/AGENT/DISPLAYS" ∅ eq_refl eq_refl) as H.
  cbv zeta in H. destruct H as (H1 & _ & _ & _ & H5 & H6).
  split; [exact H1|]. split; [exact H5 | exact H6].
Defined.

(** ** Printing and reading integers *)

Module NumberFacts.

(** A fact on a character [c] that holds by computation on each of the
    characters [H] allows. *)
Ltac by_character c H :=
  destruct c as [[] [] [] [] [] [] [] []]; try discriminate H; reflexivity.

Lemma readDigits_string_of_uint (u : Decimal.uint) (acc : Z) (rest : string) :
  Js.readDigits acc (NilEmpty.string_of_uint u ++ rest)
  = Js.readDigits (uintAcc acc u) rest.
Proof.
  revert acc. induction u; intros acc; try reflexivity;
    cbn [NilEmpty.string_of_uint uintAcc];
    match goal with
    | |- Js.readDigits _ (String ?c ?s ++ rest) = _ =>
        change (String c s ++ rest) with (String c (s ++ rest))
    end;
    cbn [Js.readDigits]; apply IHu.
Qed.

Lemma uintAcc_pos (u : Decimal.uint) (p : positive) :
  uintAcc (Z.pos p) u = Z.pos (Pos.of_uint_acc u p).
Proof.
  revert p. induction u; intros p; cbn [uintAcc Pos.of_uint_acc];
    [reflexivity | rewrite <- IHu; f_equal; lia ..].
Qed.

Lemma uintAcc_zero (u : Decimal.uint) :
  uintAcc 0 u = Z.of_N (Pos.of_uint u).
Proof.
  induction u; cbn [uintAcc Pos.of_uint];
    [reflexivity | exact IHu | apply (uintAcc_pos u) ..].
Qed.

Lemma readDigits_stop (acc : Z) (rest : string) :
  Js.startsWithDigit rest = false -> Js.readDigits acc rest = (acc, rest).
Proof.
  destruct rest as [|c rest]; [reflexivity|]. simpl.
  destruct (Js.digitOf c); [discriminate | reflexivity].
Qed.

(** A numeral with no leading zero. *)
Lemma unorm_head (d d' : Decimal.uint) :
  Decimal.unorm d = Decimal.D0 d' -> d' = Decimal.Nil.
Proof.
  unfold Decimal.unorm. destruct (Decimal.nzhead d) eqn:E; intros H;
    try discriminate.
  - inversion H. reflexivity.
  - exfalso. exact (DecimalFacts.nzhead_nonzero d _ E).
Qed.

Lemma to_uint_head (p : positive) (d : Decimal.uint) :
  Pos.to_uint p <> Decimal.D0 d.
Proof.
  intros H.
  pose proof (DecimalPos.Unsigned.to_of (Pos.to_uint p)) as Hn.
  rewrite DecimalPos.Unsigned.of_to in Hn. simpl in Hn.
  rewrite H in Hn. symmetry in Hn. apply unorm_head in Hn. subst d.
  apply (DecimalPos.Unsigned.to_uint_nonzero p). exact H.
Qed.

Lemma readDigits_to_uint (p : positive) (rest : string) :
  Js.startsWithDigit rest = false ->
  Js.readDigits 0 (NilEmpty.string_of_uint (Pos.to_uint p) ++ rest) = (Z.pos p, rest).
Proof.
  intros H. rewrite readDigits_string_of_uint, uintAcc_zero.
  rewrite DecimalPos.Unsigned.of_to. apply readDigits_stop. exact H.
Qed.

(** The text of a positive integer: digits, the first of which is not 0. *)
Lemma digits_of_positive (p : positive) :
  exists c s,
    NilZero.string_of_uint (Pos.to_uint p) = String c s /\
    NilEmpty.string_of_uint (Pos.to_uint p) = String c s /\
    (exists d, Js.digitOf c = Some d) /\ c <> "0"%char.
Proof.
  pose proof (to_uint_head p) as Hh.
  pose proof (DecimalPos.Unsigned.to_uint_nonnil p) as Hn.
  destruct (Pos.to_uint p) as [|u|u|u|u|u|u|u|u|u|u];
    [congruence | exfalso; exact (Hh u eq_refl) | ..];
    eexists; eexists; (split; [reflexivity|]); (split; [reflexivity|]);
    (split; [eexists; reflexivity | discriminate]).
Qed.

Lemma append_nil_r (s : string) : s ++ "" = s.
Proof.
  induction s as [|c s IH]; [reflexivity|].
  change (String c (s ++ "") = String c s). rewrite IH. reflexivity.
Qed.

(** The text of an integer: [0], the digits of a positive integer, or a
    minus sign and such digits. *)
Lemma Number_toString_cases (z : Z) :
  (z = 0%Z /\ Js.Number_toString z = "0") \/
  (exists p, z = Z.pos p /\
             Js.Number_toString z = NilEmpty.string_of_uint (Pos.to_uint p)) \/
  (exists p, z = Z.neg p /\
             Js.Number_toString z = String "-" (NilEmpty.string_of_uint (Pos.to_uint p))).
Proof.
  destruct z as [|p|p].
  - left. split; reflexivity.
  - right. left. exists p. split; [reflexivity|].
    destruct (digits_of_positive p) as (c & s & H1 & H2 & _).
    unfold Js.Number_toString. simpl. rewrite H2. exact H1.
  - right. right. exists p. split; [reflexivity|].
    destruct (digits_of_positive p) as (c & s & H1 & H2 & _).
    unfold Js.Number_toString. simpl. rewrite H2, H1. reflexivity.
Qed.

Lemma isNumberStart_no_whiteSpace (c : ascii) (r : string) :
  isNumberStart c = true -> Js.dropOne Js.whiteSpace (String c r) = None.
Proof.
  intros H. by_character c H.
Qed.

Lemma isNumberStart_trimStart (c : ascii) (r : string) :
  isNumberStart c = true -> Js.trimStart (String c r) = String c r.
Proof.
  intros H. unfold Js.trimStart. cbn [String.length Js.dropAll].
  rewrite isNumberStart_no_whiteSpace by exact H. reflexivity.
Qed.

Lemma isNumberStart_skipSpace (c : ascii) (r : string) :
  isNumberStart c = true -> Js.skipSpace (String c r) = String c r.
Proof.
  intros H. by_character c H.
Qed.

(** Reading the digits of a positive integer, as [parseInt] and
    [JSON.parse] do after the sign. *)
Lemma digits_read (p : positive) (rest : string) :
  Js.startsWithDigit rest = false ->
  exists c s,
    NilEmpty.string_of_uint (Pos.to_uint p) ++ rest = String c s /\
    isNumberStart c = true /\ c <> "-"%char /\ c <> "0"%char /\
    Js.startsWithDigit (String c s) = true /\
    Js.readDigits 0 (String c s) = (Z.pos p, rest).
Proof.
  intros Hr. destruct (digits_of_positive p) as (c & s & _ & H2 & (d & Hd) & H0).
  exists c, (s ++ rest).
  assert (E : NilEmpty.string_of_uint (Pos.to_uint p) ++ rest = String c (s ++ rest))
    by (rewrite H2; reflexivity).
  split; [exact E|]. split; [unfold isNumberStart; rewrite Hd; reflexivity|].
  split; [intros ->; discriminate Hd|]. split; [exact H0|].
  split; [simpl; rewrite Hd; reflexivity|].
  rewrite <- E. apply readDigits_to_uint. exact Hr.
Qed.

(** [parseInt] reads back the integer [toString] printed. *)
Lemma parseInt_Number_toString (z : Z) :
  Js.parseInt (Js.Number_toString z) = Some z.
Proof.
  destruct (Number_toString_cases z) as [[-> ->] | [(p & -> & ->) | (p & -> & ->)]].
  - reflexivity.
  - destruct (digits_read p "" eq_refl) as (c & s & E & Hs & Hm & _ & Hd & Hr).
    rewrite append_nil_r in E. rewrite E. unfold Js.parseInt.
    rewrite isNumberStart_trimStart by exact Hs.
    assert (Hsign : (match String c s with
                     | String "-" r => ((-1)%Z, r)
                     | String "+" r => (1%Z, r)
                     | _ => (1%Z, String c s)
                     end) = (1%Z, String c s)).
    { destruct c as [[] [] [] [] [] [] [] []]; try reflexivity;
        first [exfalso; apply Hm; reflexivity | discriminate Hs]. }
    rewrite Hsign. rewrite Hd, Hr. simpl fst. f_equal.
  - destruct (digits_read p "" eq_refl) as (c & s & E & Hs & Hm & _ & Hd & Hr).
    rewrite append_nil_r in E. rewrite E. unfold Js.parseInt.
    rewrite isNumberStart_trimStart by reflexivity.
    cbv iota beta. rewrite Hd, Hr. reflexivity.
Qed.

(** [JSON.parse] reads a printed integer up to what follows it. *)
Lemma parseNumber_Number_toString (z : Z) (rest : string) :
  Js.startsWithDigit rest = false ->
  Js.parseNumber (Js.Number_toString z ++ rest) = Some (z, rest).
Proof.
  intros Hrest.
  destruct (Number_toString_cases z) as [[-> ->] | [(p & -> & ->) | (p & -> & ->)]].
  - reflexivity.
  - destruct (digits_read p rest Hrest) as (c & s & E & Hs & Hm & H0 & Hd & Hr).
    rewrite E. unfold Js.parseNumber.
    assert (Hsign : (match String c s with
                     | String "-" r => ((-1)%Z, r)
                     | _ => (1%Z, String c s)
                     end) = (1%Z, String c s)).
    { destruct c as [[] [] [] [] [] [] [] []]; try reflexivity.
      exfalso; apply Hm; reflexivity. }
    rewrite Hsign.
    assert (Hzero : forall (A : Type) (a b : A),
               (match String c s with String "0" r => a | _ => b end) = b).
    { intros A a b. destruct c as [[] [] [] [] [] [] [] []]; try reflexivity.
      exfalso; apply H0; reflexivity. }
    rewrite Hzero, Hd, Hr. reflexivity.
  - destruct (digits_read p rest Hrest) as (c & s & E & Hs & Hm & H0 & Hd & Hr).
    change (String "-" (NilEmpty.string_of_uint (Pos.to_uint p)) ++ rest)
      with (String "-" (NilEmpty.string_of_uint (Pos.to_uint p) ++ rest)).
    rewrite E. unfold Js.parseNumber. cbv iota beta.
    assert (Hzero : forall (A : Type) (a b : A),
               (match String c s with String "0" r => a | _ => b end) = b).
    { intros A a b. destruct c as [[] [] [] [] [] [] [] []]; try reflexivity.
      exfalso; apply H0; reflexivity. }
    rewrite Hzero, Hd, Hr. reflexivity.
Qed.

Lemma Number_toString_head (z : Z) (rest : string) :
  exists c s, Js.Number_toString z ++ rest = String c s /\ isNumberStart c = true.
Proof.
  destruct (Number_toString_cases z) as [[-> ->] | [(p & -> & ->) | (p & -> & ->)]].
  - exists "0"%char, rest. split; reflexivity.
  - destruct (digits_of_positive p) as (c & s & _ & H2 & (d & Hd) & _).
    exists c, (s ++ rest). rewrite H2. split; [reflexivity|].
    unfold isNumberStart. rewrite Hd. reflexivity.
  - eexists; eexists. split; reflexivity.
Qed.

Lemma parseValue_atom (fuel : nat) (c : ascii) (s : string) :
  isNumberStart c = true ->
  Js.parseValue (S fuel) (String c s)
  = match Js.parseNumber (String c s) with
    | Some (n, r) => Some (Js.Number n, r)
    | None => None
    end.
Proof.
  intros H. by_character c H.
Qed.

Lemma parseValue_number (fuel : nat) (z : Z) (rest : string) :
  Js.startsWithDigit rest = false ->
  Js.parseValue (S fuel) (Js.Number_toString z ++ rest) = Some (Js.Number z, rest).
Proof.
  intros Hr. destruct (Number_toString_head z rest) as (c & s & E & Hc).
  pose proof (parseNumber_Number_toString z rest Hr) as Hn.
  rewrite E in Hn |- *. rewrite parseValue_atom by exact Hc. rewrite Hn. reflexivity.
Qed.

Lemma parseValue_open (fuel : nat) (c : ascii) (s : string) :
  isNumberStart c = true ->
  Js.parseValue (S fuel) (String "[" (String c s))
  = match Js.parseElements fuel (String c s) with
    | Some (l, r') => Some (Js.Array l, r')
    | None => None
    end.
Proof.
  intros H. by_character c H.
Qed.

Lemma parseElements_more (fuel : nat) (s r : string) (v : Js.Value) :
  Js.parseValue fuel s = Some (v, String "," r) ->
  Js.parseElements (S fuel) s
  = match Js.parseElements fuel (Js.skipSpace r) with
    | Some (l, r'') => Some (v :: l, r'')
    | None => None
    end.
Proof. intros H. cbn [Js.parseElements]. rewrite H. reflexivity. Qed.

Lemma parseElements_last (fuel : nat) (s r : string) (v : Js.Value) :
  Js.parseValue fuel s = Some (v, String "]" r) ->
  Js.parseElements (S fuel) s = Some ([v], r).
Proof. intros H. cbn [Js.parseElements]. rewrite H. reflexivity. Qed.

(** [JSON.parse] reads back the array of two integers [JSON.stringify]
    printed. *)
Lemma JSON_parse_pair (other : string -> Js.Outcome Js.Value) (p : Z * Z) :
  Js.JSON_parse other (Js.JSON_stringify_pair p)
  = Js.Ok (Js.Array [Js.Number (fst p); Js.Number (snd p)]).
Proof.
  destruct p as [high low]. unfold Js.JSON_stringify_pair, Js.JSON_parse. cbn [fst snd].
  set (r2 := "," ++ Js.Number_toString low ++ "]").
  set (text := "[" ++ Js.Number_toString high ++ r2).
  assert (Hfuel : exists k, (2 * String.length text + 2 = S (S (S (S k))))%nat).
  { subst text. change ("[" ++ Js.Number_toString high ++ r2)
      with (String "[" (Js.Number_toString high ++ r2)).
    cbn [String.length]. exists (2 * String.length (Js.Number_toString high ++ r2))%nat. lia. }
  destruct Hfuel as [k ->].
  change (Js.skipSpace text) with text. subst text.
  change ("[" ++ Js.Number_toString high ++ r2)
    with (String "[" (Js.Number_toString high ++ r2)).
  assert (Hfirst : Js.parseValue (S (S k)) (Js.Number_toString high ++ r2)
                   = Some (Js.Number high, String "," (Js.Number_toString low ++ "]")))
    by (apply parseValue_number; reflexivity).
  assert (Hsecond : Js.parseValue (S k) (Js.Number_toString low ++ "]")
                    = Some (Js.Number low, "]"))
    by (apply parseValue_number; reflexivity).
  destruct (Number_toString_head high r2) as (c & s & E & Hc).
  destruct (Number_toString_head low "]") as (c' & s' & E' & Hc').
  rewrite E in Hfirst |- *. rewrite parseValue_open by exact Hc.
  rewrite (parseElements_more _ _ _ _ Hfirst).
  rewrite E' in Hsecond |- *. rewrite isNumberStart_skipSpace by exact Hc'.
  rewrite (parseElements_last _ _ _ _ Hsecond). reflexivity.
Qed.

End NumberFacts.

(** ** Encoding and decoding values *)

Section CodecFacts.

Variable lib : Library.

Lemma Number_toString_not_empty (z : Z) :
  (String.length (Js.Number_toString z) =? 0)%nat = false.
Proof.
  destruct (NumberFacts.Number_toString_head z "") as (c & s & E & _).
  rewrite NumberFacts.append_nil_r in E. rewrite E. reflexivity.
Qed.

(** A [null] value is encoded as contents of length zero, which decode to
    [null]. *)
Lemma null_roundtrip (dt : DataType.t) (arrayType : VariantArrayType.t) :
  encodeValue lib (OpcVariant.new dt arrayType None) = Js.Ok "" /\
  decodeValue lib (Some "") dt = Js.Ok Js.Null.
Proof. split; reflexivity. Qed.

(** C1 as the specification states it fails: a string with a leading space
    is trimmed by the encoding and decoded without the space, and a number
    (no decoder is stored against its data type) is decoded as the buffer of
    its text. *)
Lemma trimmed_string_not_recovered :
  encodeValue sampleLibrary
    (OpcVariant.new DataType.String VariantArrayType.Scalar (Some (Scalar " a")))
  = Js.Ok "a" /\
  decodeValue sampleLibrary (Some "a") DataType.String = Js.Ok (Js.Str "a") /\
  valueOf DataType.String (Some (Scalar " a")) = Js.Str " a" /\
  ~ roundTrips sampleLibrary DataType.String VariantArrayType.Scalar (Some (Scalar " a")) /\
  encodeValue sampleLibrary
    (OpcVariant.new DataType.Int32 VariantArrayType.Scalar (Some (Scalar 5%Z)))
  = Js.Ok "5" /\
  decodeValue sampleLibrary (Some "5") DataType.Int32 = Js.Ok (Js.Buffer "5") /\
  valueOf DataType.Int32 (Some (Scalar 5%Z)) = Js.Number 5.
Proof.
  repeat split. intros (buffer & He & Hd).
  vm_compute in He. injection He as <-. vm_compute in Hd. discriminate Hd.
Qed.

(** C1, as amended: for every data type a [null] value is encoded as
    contents of length zero, which decode to [null]; and decoding the
    encoded contents gives the value back for a Boolean, for a string that
    is not empty and has no white space at its ends, for a date, for the two
    words of a 64-bit integer, and (as the buffer of its bytes) for a byte
    string that is not empty. A value of a data type that has neither an
    encoder nor a decoder is stored as the trimmed text of the value and
    decoded as the buffer of that text ([null] when the text is empty), not
    as the value; a node id is stored in the same way and decoded by
    [resolveNodeId] from that text. *)
Theorem value_roundtrip :
  (forall (dt : DataType.t) (arrayType : VariantArrayType.t),
     encodeValue lib (OpcVariant.new dt arrayType None) = Js.Ok "" /\
     String.length "" = 0%nat /\
     decodeValue lib (Some "") dt = Js.Ok Js.Null) /\
  (forall (dt : DataType.t) (arrayType : VariantArrayType.t) (v : option (Val (rep dt))),
     preserved dt v -> roundTrips lib dt arrayType v) /\
  (forall (dt : DataType.t) (arrayType : VariantArrayType.t) (v : Val (rep dt)),
     isNone (Encoder lib dt) = true ->
     isNone (Decoder lib dt) = true ->
     let text := Js.trim (toString lib dt v) in
     encodeValue lib (OpcVariant.new dt arrayType (Some v)) = Js.Ok text /\
     decodeValue lib (Some text) dt
     = Js.Ok (if (String.length text =? 0)%nat then Js.Null else Js.Buffer text)) /\
  (forall (arrayType : VariantArrayType.t) (v : Val (rep DataType.NodeId)),
     let text := Js.trim (toString lib DataType.NodeId v) in
     encodeValue lib (OpcVariant.new DataType.NodeId arrayType (Some v)) = Js.Ok text /\
     decodeValue lib (Some text) DataType.NodeId
     = if (String.length text =? 0)%nat then Js.Ok Js.Null
       else o <- resolveNodeId lib text ;; Js.Ok (Js.Object o)).
Proof.
  split; [intros dt arrayType; repeat split|].
  split; [|split].
  2: { intros dt arrayType v He Hd. cbv zeta. unfold encodeValue, decodeValue.
       cbn [OpcVariant.value OpcVariant.dataType].
       destruct (Encoder lib dt); [discriminate He|].
       destruct (Decoder lib dt); [discriminate Hd|].
       split; [reflexivity|].
       destruct (String.length _ =? 0)%nat; reflexivity. }
  2: { intros arrayType v. cbv zeta. split; [reflexivity|].
       unfold decodeValue. cbn [Decoder].
       destruct (String.length _ =? 0)%nat; reflexivity. }
  intros dt arrayType v Hv. unfold roundTrips.
  destruct v as [v|]; [|exists ""; apply null_roundtrip].
  destruct dt; cbn [preserved] in Hv; try discriminate Hv;
    destruct v as [a|l]; try contradiction.
  - (* Boolean *)
    destruct a; eexists; split; reflexivity.
  - (* Int64 *)
    exists (Js.JSON_stringify_pair a). split; [reflexivity|].
    unfold decodeValue. cbn [Decoder].
    change (String.length (Js.JSON_stringify_pair a) =? 0)%nat with false.
    cbv iota. apply NumberFacts.JSON_parse_pair.
  - (* UInt64 *)
    exists (Js.JSON_stringify_pair a). split; [reflexivity|].
    unfold decodeValue. cbn [Decoder].
    change (String.length (Js.JSON_stringify_pair a) =? 0)%nat with false.
    cbv iota. apply NumberFacts.JSON_parse_pair.
  - (* String *)
    destruct Hv as [Ht Hne]. exists a. split.
    + unfold encodeValue.
      cbn [OpcVariant.value OpcVariant.dataType Encoder toString scalarToString].
      unfold Buffer_from. rewrite Ht. reflexivity.
    + destruct a as [|c a]; [contradiction|]. reflexivity.
  - (* DateTime *)
    destruct a as [t|]; [|eexists; split; reflexivity].
    exists (Js.Number_toString t). split; [reflexivity|].
    unfold decodeValue. rewrite Number_toString_not_empty. cbn [Decoder].
    rewrite NumberFacts.parseInt_Number_toString. unfold Js.Date_new.
    apply Z.leb_le in Hv. rewrite Hv. reflexivity.
  - (* ByteString *)
    exists a. split; [reflexivity|].
    destruct a as [|c a]; [contradiction|]. reflexivity.
Qed.

End CodecFacts.

(** A Boolean, a string, a date, the words of a 64-bit integer and a
    [null] number. *)
Lemma value_roundtrip_witness :
  roundTrips sampleLibrary DataType.Boolean VariantArrayType.Scalar (Some (Scalar false)) /\
  roundTrips sampleLibrary DataType.String VariantArrayType.Scalar (Some (Scalar "a b")) /\
  roundTrips sampleLibrary DataType.DateTime VariantArrayType.Scalar
    (Some (Scalar (Some 1513689421337%Z))) /\
  roundTrips sampleLibrary DataType.UInt64 VariantArrayType.Scalar
    (Some (Scalar (1%Z, 4294967295%Z))) /\
  roundTrips sampleLibrary DataType.Int32 VariantArrayType.Scalar None.
Proof.
  pose proof (proj1 (proj2 (value_roundtrip sampleLibrary))) as H.
  split; [apply (H DataType.Boolean); exact I|].
  split; [apply (H DataType.String); split; [reflexivity | discriminate]|].
  split; [apply (H DataType.DateTime); vm_compute; discriminate|].
  split; [apply (H DataType.UInt64); exact I|].
  apply (H DataType.Int32). reflexivity.
Defined.

(** ** Files made from read results *)

Section FromReadResultFacts.

Variable lib : Library.
Variable AtviseTypes : list AtviseType.t.

(** With a value, [pathForReadResult] does not throw. *)
Lemma pathForReadResult_with_value (readResult : ReadStream.ReadResult) :
  ReadStream.value readResult <> None ->
  exists path, pathForReadResult AtviseTypes readResult = Js.Ok path.
Proof.
  intros H. unfold pathForReadResult.
  destruct (ReadStream.value readResult); [eexists; reflexivity | contradiction].
Qed.

(** [fromReadResult] throws the error [no value] exactly when the read
    result carries no value. *)
Lemma fromReadResult_no_value_iff
    (readResult : ReadStream.ReadResult) (h : gmap positive Js.TimeValue) :
  fromReadResult lib AtviseTypes readResult h = Js.Throw (Js.Error_ "no value")
  <-> ReadStream.value readResult = None.
Proof.
  split.
  - intros H. destruct (ReadStream.value readResult) as [variant|] eqn:E; [|reflexivity].
    exfalso. unfold fromReadResult in H. rewrite E in H.
    destruct (pathForReadResult_with_value readResult) as [path Hp]; [congruence|].
    rewrite Hp in H. cbn [Js.bind] in H.
    unfold encodeValue in H.
    destruct variant as [dt arrayType [v|]]; cbn in H.
    + destruct dt; cbn in H; try discriminate H;
        destruct v; cbn in H; try discriminate H;
        destruct (ReadStream.mtime readResult); discriminate H.
    + destruct (ReadStream.mtime readResult); discriminate H.
  - intros E. unfold fromReadResult. rewrite E. reflexivity.
Qed.

(** When the value is present and its encoding does not throw, the file is
    made with the derived path, the encoded contents and the metadata of the
    read result. *)
Lemma fromReadResult_succeeds
    (readResult : ReadStream.ReadResult) (h : gmap positive Js.TimeValue)
    (variant : OpcVariant.t) (encoded : string) :
  ReadStream.value readResult = Some variant ->
  encodeValue lib variant = Js.Ok encoded ->
  exists path file h',
    pathForReadResult AtviseTypes readResult = Js.Ok path /\
    fromReadResult lib AtviseTypes readResult h = Js.Ok (file, h') /\
    relative file = path /\
    contents file = Some encoded /\
    _dataType file = Some (DataType.Item (OpcVariant.dataType variant)) /\
    _arrayType file = Some (OpcVariant.arrayType variant) /\
    _typeDefinition file
    = Some (ReadStream.typeDefinition (ReadStream.referenceDescription readResult)) /\
    stat_mtime file = ReadStream.mtime readResult.
Proof.
  intros Hv He.
  destruct (pathForReadResult_with_value readResult) as [path Hp]; [congruence|].
  unfold fromReadResult. rewrite Hv, Hp, He. cbn [Js.bind].
  destruct (ReadStream.mtime readResult) as [date|];
    eexists; eexists; eexists; (split; [reflexivity|]); (split; [reflexivity|]);
    repeat split.
Qed.

End FromReadResultFacts.

(** C8: the read result of an array of dates carries a value, and
    [fromReadResult] throws on it: the encoder of dates calls [getTime] on
    the array. *)
Lemma fromReadResult_date_array_throws :
  let readResult :=
    {| ReadStream.nodeId := NodeId.ofString "AGENT.OBJECTS.Timestamps";
       ReadStream.value :=
         Some (OpcVariant.new DataType.DateTime VariantArrayType.Array
                 (Some (Elements [Some 1513689421337%Z])));
       ReadStream.referenceDescription :=
         {| ReadStream.typeDefinition := VariableTypeDefinition |};
       ReadStream.mtime := None |} in
  ReadStream.value readResult <> None /\
  pathForReadResult sampleTypes readResult = Js.Ok "AGENT/OBJECTS/Timestamps.datetime.array" /\
  fromReadResult sampleLibrary sampleTypes readResult ∅
  = Js.Throw (Js.TypeError "date.getTime is not a function").
Proof. cbv zeta. repeat split. discriminate. Qed.

(** * Further properties of the code *)

(** ** The watch task along its runs *)

Module WatchRunFacts.
Import WatchTask WatchRun.

Lemma step_keeps_exclusive (zone : Js.Zone) (e : Event) (s : t) :
  _pulling s && _pushing s = false ->
  _pulling (fst (step zone e s)) && _pushing (fst (step zone e s)) = false.
Proof.
  intros H. destruct e as [path mtime|nodeId| |nodeId|mtime]; simpl.
  - unfold handleFileChange.
    destruct (_pulling s) eqn:Ep; simpl; [rewrite Ep; exact H|].
    destruct (greater (normalizedTime zone mtime) (_lastPull s)); simpl; [reflexivity|].
    rewrite Ep. reflexivity.
  - exact H.
  - apply andb_false_r.
  - unfold handleServerChange.
    destruct (_pushing s) eqn:Ep; simpl; [rewrite Ep; exact H|].
    destruct (bool_decide _); simpl; rewrite ?Ep;
      first [reflexivity | apply andb_false_r].
  - reflexivity.
Qed.

Lemma run_keeps_exclusive (zone : Js.Zone) (events : list Event) (s : t) :
  _pulling s && _pushing s = false ->
  _pulling (run zone events s) && _pushing (run zone events s) = false.
Proof.
  revert s. induction events as [|e events IH]; intros s H; [exact H|].
  apply IH, step_keeps_exclusive, H.
Qed.

(** Whatever the watchers report and whenever the streams call back, a new
    watch task never has its pulling flag and its pushing flag set together. *)
Theorem never_pulling_and_pushing (zone : Js.Zone) (events : list Event) :
  _pulling (run zone events constructor) && _pushing (run zone events constructor) = false.
Proof. apply run_keeps_exclusive. reflexivity. Qed.

Lemma wholeSecond_same_second (t m : Z) :
  (m < wholeSecond t + 1000)%Z -> (wholeSecond m <= wholeSecond t)%Z.
Proof.
  unfold wholeSecond. intros H.
  pose proof (Z.mod_pos_bound t 1000). pose proof (Z.mod_pos_bound m 1000).
  pose proof (Z.div_mod t 1000). pose proof (Z.div_mod m 1000).
  assert (m / 1000 <= t / 1000)%Z; [|lia].
  apply Z.lt_succ_r. apply (Z.mul_lt_mono_pos_l 1000); lia.
Qed.

Lemma greater_Date_new (a b : Z) :
  (a <= b)%Z -> greater (Js.Date_new (Some a)) (Js.Date_new (Some b)) = false.
Proof.
  intros H. unfold Js.Date_new.
  destruct (Z.abs a <=? Js.maxTime)%Z; destruct (Z.abs b <=? Js.maxTime)%Z;
    cbn [greater]; try reflexivity.
  apply Z.ltb_ge. exact H.
Qed.

(** After a pull of a node modified at [pulled], a change of a file whose
    modification time lies in the second of [pulled] or before it (as the
    file the pull wrote) starts no push and leaves the task as it is, where
    the zone of the host is at one offset of whole seconds from UTC at both
    times (no change of daylight saving lies between them). *)
Theorem pulled_file_is_not_pushed_back
    (zone : Js.Zone) (off : Z) (path : string) (pulled m : Z) (s : t) :
  (off mod 1000 = 0)%Z ->
  zoneOffsetAt zone off pulled ->
  zoneOffsetAt zone off m ->
  (m < wholeSecond pulled + 1000)%Z ->
  handleFileChange zone path m (fst (onPullEnd zone pulled s))
  = (fst (onPullEnd zone pulled s), [Resolve false]).
Proof.
  intros Hoff Hp Hm H. unfold handleFileChange.
  cbn [onPullEnd fst _pulling _lastPull negb andb]. unfold normalizedTime.
  rewrite (setMilliseconds0_at_offset zone off m Hoff Hm).
  rewrite (setMilliseconds0_at_offset zone off pulled Hoff Hp).
  rewrite greater_Date_new by (apply wholeSecond_same_second; exact H).
  reflexivity.
Qed.

(** In Vienna in winter: a pull at 13:17:01.337Z, then the change of a file
    written at 13:17:01.900Z. *)
Lemma pulled_file_is_not_pushed_back_witness :
  snd (handleFileChange Vienna2017 "AGENT/DISPLAYS/Main.display.xml" 1513689421900
         (fst (onPullEnd Vienna2017 1513689421337 constructor))) = [Resolve false].
Proof.
  rewrite (pulled_file_is_not_pushed_back Vienna2017 3600000
             "AGENT/DISPLAYS/Main.display.xml" 1513689421337 1513689421900 constructor).
  - reflexivity.
  - reflexivity.
  - split; vm_compute; reflexivity.
  - split; vm_compute; reflexivity.
  - vm_compute. reflexivity.
Defined.

Lemma other_events_keep_record
    (zone : Js.Zone) (text : string) (events : list Event) (s : t) :
  forallb (concernsOther text) events = true ->
  _pushing s = false ->
  _lastPushed s = Some text ->
  _pushing (run zone events s) = false /\ _lastPushed (run zone events s) = Some text.
Proof.
  revert s. induction events as [|e events IH]; intros s He Hp Hl; [split; assumption|].
  cbn [forallb] in He. apply andb_true_iff in He as [He Hes].
  assert (Hstep : _pushing (fst (step zone e s)) = false /\
                  _lastPushed (fst (step zone e s)) = Some text).
  { destruct e as [path mtime|nodeId| |nodeId|mtime]; try discriminate He;
      cbn [concernsOther] in He; cbn [step].
    - apply negb_true_iff, String.eqb_neq in He.
      unfold handleServerChange. rewrite Hp, Hl. cbn [negb].
      rewrite bool_decide_eq_false_2 by congruence.
      split; reflexivity.
    - cbn [onPullEnd fst _pushing _lastPushed]. split; assumption. }
  destruct Hstep as [Hp' Hl'].
  change (run zone (e :: events) s) with (run zone events (fst (step zone e s))).
  apply IH; assumption.
Qed.

(** The record of the last pushed node does not expire: after a push of
    [N], however many changes of other nodes are pulled, the next change of
    [N] on the server still starts no pull. *)
Theorem suppression_outlives_other_pulls
    (zone : Js.Zone) (N : NodeId.t) (events : list Event) (s : t) :
  _pushing s = false ->
  _lastPushed s = Some (NodeId.toString N) ->
  forallb (concernsOther (NodeId.toString N)) events = true ->
  snd (handleServerChange N (run zone events s)) = [Resolve false] /\
  _lastPushed (fst (handleServerChange N (run zone events s))) = None.
Proof.
  intros Hp Hl He.
  destruct (other_events_keep_record zone _ events s He Hp Hl) as [Hp' Hl'].
  unfold handleServerChange. rewrite Hp', Hl'.
  rewrite bool_decide_eq_true_2 by reflexivity. split; reflexivity.
Qed.

(** A push of [Main], two pulls of [Other], then a change of [Main]. *)
Lemma suppression_outlives_other_pulls_witness :
  let main := NodeId.ofString "AGENT.DISPLAYS.Main" in
  let other := NodeId.ofString "AGENT.DISPLAYS.Other" in
  let pushed :=
    run Vienna2017 [FileChange "AGENT/DISPLAYS/Main.bool" 5000; PushData main; PushEnd]
        constructor in
  let later :=
    run Vienna2017 [ServerChange other; PullEnd 7000; ServerChange other; PullEnd 9000]
        pushed in
  _lastPull later = Some 9000%Z /\
  snd (handleServerChange main later) = [Resolve false].
Proof.
  cbv zeta. split; [vm_compute; reflexivity|].
  apply (suppression_outlives_other_pulls Vienna2017
           (NodeId.ofString "AGENT.DISPLAYS.Main")
           [ServerChange (NodeId.ofString "AGENT.DISPLAYS.Other"); PullEnd 7000;
            ServerChange (NodeId.ofString "AGENT.DISPLAYS.Other"); PullEnd 9000]
           (run Vienna2017
              [FileChange "AGENT/DISPLAYS/Main.bool" 5000;
               PushData (NodeId.ofString "AGENT.DISPLAYS.Main"); PushEnd] constructor));
    vm_compute; reflexivity.
Defined.

End WatchRunFacts.

(** ** Objects used as maps *)

Module DictFacts.

Lemma getOwn_Some_In (obj : Js.Dict string) (k v : string) :
  Js.getOwn obj k = Some v -> In (k, v) obj.
Proof.
  induction obj as [|[k0 v0] obj IH]; simpl; [discriminate|].
  destruct (String.eqb_spec k0 k) as [->|Hne].
  - intros H. injection H as ->. left. reflexivity.
  - intros H. right. apply IH, H.
Qed.

Lemma getOwn_None_not_In (obj : Js.Dict string) (k : string) :
  ~ In k (map fst obj) -> Js.getOwn obj k = None.
Proof.
  induction obj as [|[k0 v0] obj IH]; intros Hnot; simpl; [reflexivity|].
  destruct (String.eqb_spec k0 k) as [->|Hne].
  - exfalso. apply Hnot. left. reflexivity.
  - apply IH. intros H. apply Hnot. right. exact H.
Qed.

Lemma getOwn_replace (obj : Js.Dict string) (k v k' : string) :
  Js.getOwn (Js.replace obj k v) k'
  = match Js.getOwn obj k with
    | Some _ => if String.eqb k k' then Some v else Js.getOwn obj k'
    | None => Js.getOwn obj k'
    end.
Proof.
  induction obj as [|[k0 v0] obj IH]; simpl; [reflexivity|].
  destruct (String.eqb_spec k0 k) as [->|Hne]; simpl.
  - destruct (String.eqb k k'); reflexivity.
  - rewrite IH. destruct (Js.getOwn obj k); [|reflexivity].
    destruct (String.eqb_spec k0 k') as [->|Hne'].
    + destruct (String.eqb_spec k k'); [congruence | reflexivity].
    + reflexivity.
Qed.

Lemma getOwn_insertIndex (obj : Js.Dict string) (n : Z) (k v k' : string) :
  Js.getOwn obj k = None ->
  Js.getOwn (Js.insertIndex n k v obj) k'
  = if String.eqb k k' then Some v else Js.getOwn obj k'.
Proof.
  induction obj as [|[k0 v0] obj IH]; intros Hk; [reflexivity|].
  cbn [Js.getOwn] in Hk.
  destruct (String.eqb_spec k0 k) as [->|Hne]; [discriminate|].
  cbn [Js.insertIndex].
  destruct (Js.arrayIndex k0) as [m|]; [destruct (m <? n)%Z|]; try reflexivity.
  cbn [Js.getOwn]. rewrite (IH Hk).
  destruct (String.eqb_spec k0 k') as [->|Hne']; [|reflexivity].
  destruct (String.eqb_spec k k'); [congruence | reflexivity].
Qed.

Lemma getOwn_append (obj : Js.Dict string) (k v k' : string) :
  Js.getOwn obj k = None ->
  Js.getOwn (obj ++ [(k, v)])%list k'
  = if String.eqb k k' then Some v else Js.getOwn obj k'.
Proof.
  induction obj as [|[k0 v0] obj IH]; intros Hk; [reflexivity|].
  cbn [Js.getOwn] in Hk.
  destruct (String.eqb_spec k0 k) as [->|Hne]; [discriminate|].
  cbn [app Js.getOwn]. rewrite (IH Hk).
  destruct (String.eqb_spec k0 k') as [->|Hne']; [|reflexivity].
  destruct (String.eqb_spec k k'); [congruence | reflexivity].
Qed.

(** A property that is set is there, and the others are as they were. *)
Lemma getOwn_define (obj : Js.Dict string) (k v k' : string) :
  Js.getOwn (Js.define obj k v) k'
  = if String.eqb k k' then Some v else Js.getOwn obj k'.
Proof.
  unfold Js.define. destruct (Js.getOwn obj k) as [w|] eqn:E.
  - rewrite getOwn_replace, E. reflexivity.
  - destruct (Js.arrayIndex k).
    + apply getOwn_insertIndex, E.
    + apply getOwn_append, E.
Qed.

Lemma getOwn_assign (obj : Js.Dict string) (k v k' : string) :
  k <> "__proto__" ->
  Js.getOwn (Js.assign obj k v) k'
  = if String.eqb k k' then Some v else Js.getOwn obj k'.
Proof.
  intros Hk. unfold Js.assign.
  destruct (String.eqb_spec k "__proto__"); [contradiction|]. apply getOwn_define.
Qed.

Lemma getOwn_assign_other (obj : Js.Dict string) (k v k' : string) :
  k <> k' -> Js.getOwn (Js.assign obj k v) k' = Js.getOwn obj k'.
Proof.
  intros Hne. unfold Js.assign. destruct (String.eqb k "__proto__"); [reflexivity|].
  rewrite getOwn_define. destruct (String.eqb_spec k k'); [contradiction | reflexivity].
Qed.

Section Reversal.

Variable obj : Js.Dict string.

Lemma reversal_untouched (L : list string) (acc : Js.Dict string) (v : string) :
  (forall key, In key L -> Js.getOwn obj key <> Some v) ->
  Js.getOwn (fold_left (reversalStep obj) L acc) v = Js.getOwn acc v.
Proof.
  revert acc. induction L as [|key L IH]; intros acc H; [reflexivity|].
  cbn [fold_left]. rewrite IH by (intros key' Hin; apply H; right; exact Hin).
  unfold reversalStep. destruct (Js.getOwn obj key) as [w|] eqn:E; [|reflexivity].
  apply getOwn_assign_other. intros ->. apply (H key); [left; reflexivity | exact E].
Qed.

Lemma reversal_found (L : list string) (acc : Js.Dict string) (k v : string) :
  In k L ->
  Js.getOwn obj k = Some v ->
  v <> "__proto__" ->
  (forall key, In key L -> Js.getOwn obj key = Some v -> key = k) ->
  Js.getOwn (fold_left (reversalStep obj) L acc) v = Some k.
Proof.
  revert acc. induction L as [|key L IH]; intros acc Hin Hk Hv Huniq; [contradiction|].
  cbn [fold_left].
  destruct (in_dec string_dec k L) as [Hl | Hl].
  - apply IH; [exact Hl | exact Hk | exact Hv|].
    intros key' Hin' E. apply Huniq; [right; exact Hin' | exact E].
  - destruct Hin as [-> | Hin]; [|contradiction].
    rewrite reversal_untouched.
    + unfold reversalStep. rewrite Hk. rewrite getOwn_assign by exact Hv.
      rewrite String.eqb_refl. reflexivity.
    + intros key' Hin' E. apply Hl.
      rewrite <- (Huniq key' (or_intror Hin') E). exact Hin'.
Qed.

Lemma reversal_origin (L : list string) (acc : Js.Dict string) (k v : string) :
  Js.getOwn (fold_left (reversalStep obj) L acc) v = Some k ->
  (In k L /\ Js.getOwn obj k = Some v) \/ Js.getOwn acc v = Some k.
Proof.
  revert acc. induction L as [|key L IH]; intros acc H; [right; exact H|].
  cbn [fold_left] in H. destruct (IH _ H) as [[Hin E] | Hacc].
  - left. split; [right; exact Hin | exact E].
  - unfold reversalStep in Hacc. destruct (Js.getOwn obj key) as [w|] eqn:E; [|right; exact Hacc].
    unfold Js.assign in Hacc.
    destruct (String.eqb w "__proto__"); [right; exact Hacc|].
    rewrite getOwn_define in Hacc.
    destruct (String.eqb_spec w v) as [->|Hne]; [|right; exact Hacc].
    injection Hacc as <-. left. split; [left; reflexivity | exact E].
Qed.

(** The lookups of the reversed object, for an object in which no two keys
    have the same value and no value is [__proto__]. *)
Lemma reverseObject_lookup (k v : string) :
  (forall a b w, Js.getOwn obj a = Some w -> Js.getOwn obj b = Some w -> a = b) ->
  (forall a, Js.getOwn obj a <> Some "__proto__") ->
  Js.getOwn (reverseObject obj) v = Some k <-> Js.getOwn obj k = Some v.
Proof.
  intros Hinj Hproto. change (reverseObject obj) with (fold_left (reversalStep obj) (Js.keys obj) []). split.
  - intros H. destruct (reversal_origin _ _ _ _ H) as [[_ E] | E];
      [exact E | discriminate E].
  - intros E. apply reversal_found.
    + apply getOwn_Some_In in E. apply (in_map fst) in E. exact E.
    + exact E.
    + intros ->. apply (Hproto k E).
    + intros key _ E'. apply (Hinj key k v E' E).
Qed.

End Reversal.

Lemma distinct_values (obj : Js.Dict string) :
  NoDup (map snd obj) ->
  forall a b w, Js.getOwn obj a = Some w -> Js.getOwn obj b = Some w -> a = b.
Proof.
  intros Hnd a b w Ha Hb. apply getOwn_Some_In in Ha, Hb.
  induction obj as [|[k0 v0] obj IH]; [contradiction|].
  cbn [map snd] in Hnd. apply NoDup_cons in Hnd as [Hnot Hnd].
  rewrite list_elem_of_In in Hnot.
  destruct Ha as [Ha | Ha], Hb as [Hb | Hb].
  - congruence.
  - exfalso. apply Hnot. injection Ha as _ ->. apply (in_map snd) in Hb. exact Hb.
  - exfalso. apply Hnot. injection Hb as _ ->. apply (in_map snd) in Ha. exact Ha.
  - apply IH; assumption.
Qed.

Lemma no_proto_value (obj : Js.Dict string) :
  ~ In "__proto__" (map snd obj) ->
  forall a, Js.getOwn obj a <> Some "__proto__".
Proof.
  intros Hnot a E. apply Hnot. apply getOwn_Some_In in E.
  apply (in_map snd) in E. exact E.
Qed.

Lemma swapped_keys (obj : Js.Dict string) : map fst (swapped obj) = map snd obj.
Proof. unfold swapped. rewrite map_map. reflexivity. Qed.

Lemma assign_fresh (obj : Js.Dict string) (k v : string) :
  ~ In k (map fst obj) ->
  k <> "__proto__" ->
  Js.arrayIndex k = None ->
  Js.assign obj k v = (obj ++ [(k, v)])%list.
Proof.
  intros Hnot Hk Hi. unfold Js.assign, Js.define.
  destruct (String.eqb_spec k "__proto__"); [contradiction|].
  rewrite (getOwn_None_not_In obj k Hnot), Hi. reflexivity.
Qed.

Lemma reverseObject_from (pre suf : Js.Dict string) :
  NoDup (map fst (pre ++ suf)%list) ->
  NoDup (map snd (pre ++ suf)%list) ->
  (forall v, In v (map snd suf) -> v <> "__proto__" /\ Js.arrayIndex v = None) ->
  fold_left
    (fun result key =>
       match Js.getOwn (pre ++ suf)%list key with
       | Some v => Js.assign result v key
       | None => result
       end)
    (Js.keys suf) (swapped pre)
  = swapped (pre ++ suf)%list.
Proof.
  revert pre. induction suf as [|[k v] suf IH]; intros pre Hk Hv Hplain.
  - rewrite app_nil_r. reflexivity.
  - cbn [Js.keys map fst fold_left].
    assert (Hget : Js.getOwn (pre ++ (k, v) :: suf)%list k = Some v).
    { destruct (Js.getOwn (pre ++ (k, v) :: suf)%list k) as [w|] eqn:E.
      - f_equal. apply getOwn_Some_In in E.
        assert (Hin : In (k, v) (pre ++ (k, v) :: suf)%list)
          by (apply in_or_app; right; left; reflexivity).
        clear -Hk E Hin. induction (pre ++ (k, v) :: suf)%list as [|[k0 v0] l IH];
          [contradiction|].
        cbn [map fst] in Hk. apply NoDup_cons in Hk as [Hnot Hk].
        rewrite list_elem_of_In in Hnot.
        destruct E as [E | E], Hin as [Hin | Hin].
        + congruence.
        + exfalso. apply Hnot. injection E as -> _. apply (in_map fst) in Hin. exact Hin.
        + exfalso. apply Hnot. injection Hin as -> _. apply (in_map fst) in E. exact E.
        + apply IH; assumption.
      - exfalso. revert E. clear. induction pre as [|[k0 v0] pre IH]; simpl.
        + rewrite String.eqb_refl. discriminate.
        + destruct (String.eqb k0 k); [discriminate | exact IH]. }
    rewrite Hget.
    assert (Hfresh : ~ In v (map fst (swapped pre))).
    { rewrite swapped_keys. rewrite map_app in Hv. cbn [map snd] in Hv.
      apply NoDup_app in Hv as (_ & Hv & _). intros H.
      apply (Hv v); [apply list_elem_of_In; exact H | left]. }
    destruct (Hplain v (or_introl eq_refl)) as [Hproto Hindex].
    rewrite (assign_fresh _ _ _ Hfresh Hproto Hindex).
    change (swapped pre ++ [(v, k)])%list with (swapped pre ++ swapped [(k, v)])%list.
    unfold swapped at 1 2. rewrite <- map_app. fold (swapped (pre ++ [(k, v)])%list).
    replace (pre ++ (k, v) :: suf)%list with ((pre ++ [(k, v)]) ++ suf)%list
      by (rewrite <- app_assoc; reflexivity).
    apply IH; [rewrite <- app_assoc; assumption | rewrite <- app_assoc; assumption|].
    intros w Hw. apply Hplain. right. exact Hw.
Qed.

(** [reverseObject] switches keys and values. For an object whose values
    differ and none of whose values is [__proto__], a value leads back to
    its key in the reversed object; when no key is [__proto__] either,
    reversing twice gives an object with the properties of the first; and
    when no value is an array index, the reversed object lists the
    properties in the order of the first (array indices would come first). *)
Theorem reverseObject_inverse (obj : Js.Dict string) :
  NoDup (map fst obj) ->
  NoDup (map snd obj) ->
  ~ In "__proto__" (map snd obj) ->
  (forall k v : string,
     Js.getOwn (reverseObject obj) v = Some k <-> Js.getOwn obj k = Some v) /\
  (Js.getOwn obj "__proto__" = None ->
   forall k : string,
     Js.getOwn (reverseObject (reverseObject obj)) k = Js.getOwn obj k) /\
  ((forall v, In v (map snd obj) -> Js.arrayIndex v = None) ->
   reverseObject obj = swapped obj).
Proof.
  intros Hk Hv Hproto.
  assert (Hlookup : forall k v : string,
            Js.getOwn (reverseObject obj) v = Some k <-> Js.getOwn obj k = Some v).
  { intros k v. apply reverseObject_lookup;
      [apply distinct_values, Hv | apply no_proto_value, Hproto]. }
  split; [exact Hlookup|]. split.
  - intros Hkey k.
    assert (Htwice : forall v, Js.getOwn (reverseObject (reverseObject obj)) k = Some v
                               <-> Js.getOwn (reverseObject obj) v = Some k).
    { intros v. apply reverseObject_lookup.
      - intros a b w Ha Hb. apply Hlookup in Ha, Hb. congruence.
      - intros a E. apply Hlookup in E. congruence. }
    destruct (Js.getOwn (reverseObject (reverseObject obj)) k) as [v|] eqn:E1.
    + symmetry. apply Hlookup, Htwice. reflexivity.
    + destruct (Js.getOwn obj k) as [v|] eqn:E2; [|reflexivity].
      apply Hlookup, Htwice in E2. discriminate E2.
  - intros Hindex. apply (reverseObject_from [] obj Hk Hv).
    intros v Hin. split; [|apply Hindex, Hin]. intros ->. apply Hproto, Hin.
Qed.

(** The short extensions of the data types, reversed; and an object with
    the values [2] and [1], whose reversal lists [1] first. *)
Lemma reverseObject_inverse_witness :
  Js.getOwn (reverseObject ExtensionForDataType) "xml" = Some "XmlElement" /\
  reverseObject ExtensionForDataType = swapped ExtensionForDataType /\
  Js.getOwn (reverseObject [("a", "2"); ("b", "1")]) "2" = Some "a" /\
  reverseObject [("a", "2"); ("b", "1")] = [("1", "b"); ("2", "a")].
Proof.
  assert (Hk : NoDup (map fst ExtensionForDataType))
    by (apply (bool_decide_unpack _); vm_compute; exact I).
  assert (Hv : NoDup (map snd ExtensionForDataType))
    by (apply (bool_decide_unpack _); vm_compute; exact I).
  assert (Hp : ~ In "__proto__" (map snd ExtensionForDataType))
    by (cbn; intros [H | [H | []]]; discriminate H).
  destruct (reverseObject_inverse ExtensionForDataType Hk Hv Hp) as (H1 & _ & H3).
  split; [apply H1; reflexivity|].
  split; [apply H3; intros v [<- | [<- | []]]; reflexivity|].
  assert (Hk' : NoDup (map fst [("a", "2"); ("b", "1")]))
    by (apply (bool_decide_unpack _); vm_compute; exact I).
  assert (Hv' : NoDup (map snd [("a", "2"); ("b", "1")]))
    by (apply (bool_decide_unpack _); vm_compute; exact I).
  assert (Hp' : ~ In "__proto__" (map snd [("a", "2"); ("b", "1")]))
    by (cbn; intros [H | [H | []]]; discriminate H).
  destruct (reverseObject_inverse [("a", "2"); ("b", "1")] Hk' Hv' Hp') as (H1' & _ & _).
  split; [apply H1'; reflexivity | reflexivity].
Defined.

End DictFacts.

(** ** The extension of a path *)

Module ExtensionFacts.

Lemma noSeparator_after_separator (dir rest : string) (c : ascii) :
  isSeparator c = true -> noSeparator (dir ++ String c rest) = false.
Proof.
  intros Hc. induction dir as [|x dir IH].
  - change (noSeparator (String c rest) = false). simpl. rewrite Hc. reflexivity.
  - change (noSeparator (String x (dir ++ String c rest)) = false). simpl.
    rewrite IH. apply andb_false_r.
Qed.

Lemma match_after_separator (dir name : string) (c : ascii) :
  isSeparator c = true ->
  ExtensionRegExp_match (dir ++ String c name) = ExtensionRegExp_match name.
Proof.
  intros Hc. induction dir as [|x dir IH].
  - change (ExtensionRegExp_match (String c name) = ExtensionRegExp_match name).
    simpl. replace (Ascii.eqb c ".") with false; [reflexivity|].
    unfold isSeparator in Hc. apply orb_true_iff in Hc as [H|H];
      apply Ascii.eqb_eq in H; subst c; reflexivity.
  - change (ExtensionRegExp_match (String x (dir ++ String c name))
            = ExtensionRegExp_match name).
    simpl. rewrite (noSeparator_after_separator dir name c Hc).
    rewrite andb_false_r. exact IH.
Qed.

Lemma match_is_suffix (s e : string) :
  ExtensionRegExp_match s = Some e ->
  noSeparator e = true /\ exists base, s = base ++ String "." e.
Proof.
  induction s as [|c s IH]; simpl; [discriminate|].
  destruct (Ascii.eqb c "." && noSeparator s) eqn:E.
  - intros H. injection H as <-. apply andb_true_iff in E as [Hc Hs].
    apply Ascii.eqb_eq in Hc. subst c. split; [exact Hs|].
    exists "". reflexivity.
  - intros H. destruct (IH H) as [Hs [base ->]]. split; [exact Hs|].
    exists (String c base). reflexivity.
Qed.

(** The extension that [ExtensionRegExp] gives is read from the file name
    alone: the directories of the path, whatever dots they hold, do not
    count, with [/] and with [\] as the separator. What it gives is the end
    of the path after a dot, and holds no separator. *)
Theorem extension_of_file_name (dir name : string) :
  ExtensionRegExp_match (dir ++ String "/" name) = ExtensionRegExp_match name /\
  ExtensionRegExp_match (dir ++ String "\" name) = ExtensionRegExp_match name /\
  (forall e : string,
     ExtensionRegExp_match name = Some e ->
     noSeparator e = true /\ exists base, name = base ++ String "." e).
Proof.
  split; [|split].
  - apply match_after_separator. reflexivity.
  - apply match_after_separator. reflexivity.
  - apply match_is_suffix.
Qed.

(** The extensions of the data types are distinct, hold neither a dot nor a
    separator, are none of the extensions with a meaning of their own
    ([array], [matrix], [prop]), and lead back to their data type by the
    table the inference consults for them. *)
Theorem extensionForDataType_recovered (a b : DataType.t) :
  (extensionForDataType a = extensionForDataType b -> a = b) /\
  dotFree (extensionForDataType a) = true /\
  noSeparator (extensionForDataType a) = true /\
  Js.includes ["array"; "matrix"; "prop"] (Some (extensionForDataType a)) = false /\
  (if Js.includes typeExtensions (Some (extensionForDataType a))
   then dataTypeOfTypeExtension (Some (extensionForDataType a)) = Some (DataType.Item a)
   else Js.truthy (Js.get DataTypeForExtension (extensionForDataType a)) = true /\
        dataTypeOfShortExtension (Some (extensionForDataType a)) = Some (DataType.Item a)).
Proof.
  split; [|destruct a; vm_compute; repeat split].
  destruct a, b; intros H; try reflexivity; vm_compute in H; discriminate H.
Qed.

End ExtensionFacts.

(** ** Normalized modification times, again *)

Module MtimeFacts.

Lemma wholeSecond_bounds (n : Z) :
  (wholeSecond n mod 1000 = 0)%Z /\ (wholeSecond n <= n < wholeSecond n + 1000)%Z /\
  wholeSecond (wholeSecond n) = wholeSecond n.
Proof.
  unfold wholeSecond.
  assert (H : ((n - n mod 1000) mod 1000 = 0)%Z).
  { rewrite (seconds_floor n), (Z.mul_comm 1000). apply Z.mod_mul. lia. }
  pose proof (Z.mod_pos_bound n 1000). rewrite H. lia.
Qed.

(** An invalid date stays invalid, and normalizing it again changes
    nothing. Where the zone of the host is at an offset of whole seconds
    from UTC at the time of a valid date, the normalized time is the whole
    second of the time: a multiple of 1000 ms, at most the time and less
    than a second before it; and where the zone is at that offset at the
    normalized time too, normalizing again changes nothing. *)
Theorem normalizeMtime_idempotent
    (lib : Library) (h : gmap positive Js.TimeValue) (date : positive) :
  let h' := snd (normalizeMtime lib date h) in
  (h !! date = Some None ->
   h' !! date = Some None /\ normalizeMtime lib date h' = (date, h')) /\
  (forall n off : Z,
     h !! date = Some (Some n) ->
     (off mod 1000 = 0)%Z ->
     zoneOffsetAt (zone lib) off n ->
     (Z.abs (wholeSecond n) <= Js.maxTime)%Z ->
     h' !! date = Some (Some (wholeSecond n)) /\
     (wholeSecond n mod 1000 = 0)%Z /\
     (wholeSecond n <= n < wholeSecond n + 1000)%Z /\
     (zoneOffsetAt (zone lib) off (wholeSecond n) ->
      normalizeMtime lib date h' = (date, h'))).
Proof.
  cbv zeta. unfold normalizeMtime. cbn [snd]. split.
  - intros Hd.
    assert (Hl : alter (Js.setMilliseconds0 (zone lib)) date h !! date = Some None)
      by (rewrite lookup_alter_eq, Hd; reflexivity).
    split; [exact Hl|]. f_equal. apply alter_id.
    intros x Hx. rewrite Hl in Hx. injection Hx as <-. reflexivity.
  - intros n off Hd Hoff Hz Hr.
    assert (Hl : alter (Js.setMilliseconds0 (zone lib)) date h !! date
                 = Some (Some (wholeSecond n))).
    { rewrite lookup_alter_eq, Hd. cbn [fmap option_fmap option_map].
      rewrite (setMilliseconds0_at_offset _ off n Hoff Hz). unfold Js.Date_new.
      apply Z.leb_le in Hr. rewrite Hr. reflexivity. }
    destruct (wholeSecond_bounds n) as (H1 & H2 & H3).
    split; [exact Hl|]. split; [exact H1|]. split; [exact H2|].
    intros Hz'. f_equal. apply alter_id.
    intros x Hx. rewrite Hl in Hx. injection Hx as <-.
    rewrite (setMilliseconds0_at_offset _ off _ Hoff Hz'), H3. unfold Js.Date_new.
    apply Z.leb_le in Hr. rewrite Hr. reflexivity.
Qed.

(** The date 2017-12-19T13:17:01.337Z in Vienna, in winter. *)
Lemma normalizeMtime_idempotent_witness :
  let h : gmap positive Js.TimeValue := {[ 7%positive := Some 1513689421337%Z ]} in
  let h' := snd (normalizeMtime sampleLibrary 7%positive h) in
  h' !! 7%positive = Some (Some 1513689421000%Z) /\
  normalizeMtime sampleLibrary 7%positive h' = (7%positive, h').
Proof.
  cbv zeta.
  destruct (normalizeMtime_idempotent sampleLibrary
              {[ 7%positive := Some 1513689421337%Z ]} 7%positive) as [_ H].
  cbv zeta in H.
  destruct (H 1513689421337%Z 3600000%Z) as (H1 & _ & _ & H4).
  - reflexivity.
  - reflexivity.
  - split; vm_compute; reflexivity.
  - vm_compute. discriminate.
  - split; [exact H1|]. apply H4. split; vm_compute; reflexivity.
Defined.

End MtimeFacts.

(** ** What the codec throws on *)

Section CodecThrows.

Variable lib : Library.

(** [encodeValue] throws on the arrays of dates, and on nothing else. *)
Theorem encodeValue_throws_iff (variant : OpcVariant.t) :
  Js.isOk (encodeValue lib variant) = false <->
  OpcVariant.dataType variant = DataType.DateTime /\
  exists l, OpcVariant.value variant = Some (Elements l).
Proof.
  destruct variant as [dt at' [[a|l]|]]; destruct dt; cbn;
    (split; [intros H | intros [Hd [l' Hl]]]);
    first [ discriminate H | discriminate Hd | discriminate Hl | reflexivity
          | split; [reflexivity | exists l; reflexivity] ].
Qed.

(** [decodeValue] throws only what its decoder throws, on contents that are
    not empty: for node ids, what [resolveNodeId] throws; for the 64-bit
    integers, what [JSON.parse] throws. The other data types never throw. *)
Theorem decodeValue_throws_only (buffer : option string) (dt : DataType.t) (e : Js.Error) :
  decodeValue lib buffer dt = Js.Throw e ->
  exists b : string,
    buffer = Some b /\ b <> "" /\
    ((dt = DataType.NodeId /\ resolveNodeId lib b = Js.Throw e) \/
     ((dt = DataType.Int64 \/ dt = DataType.UInt64) /\
      Js.JSON_parse (JSON_parse_other lib) b = Js.Throw e)).
Proof.
  unfold decodeValue. destruct buffer as [b|]; [|discriminate].
  destruct b as [|c b]; [discriminate|]. cbn [String.length Nat.eqb].
  intros H. exists (String c b). split; [reflexivity|]. split; [discriminate|].
  destruct dt; cbn in H; try discriminate H.
  - right. split; [left; reflexivity | exact H].
  - right. split; [right; reflexivity | exact H].
  - left. split; [reflexivity|].
    destruct (resolveNodeId lib (String c b)); cbn in H; [discriminate H | congruence].
Qed.

End CodecThrows.

(** Contents that are no JSON text, for a 64-bit integer. *)
Lemma decodeValue_throws_only_witness :
  exists b : string,
    Some "x" = Some b /\ b <> "" /\
    ((DataType.Int64 = DataType.NodeId /\
      resolveNodeId sampleLibrary b = Js.Throw (Js.SyntaxError "Unexpected token in JSON")) \/
     ((DataType.Int64 = DataType.Int64 \/ DataType.Int64 = DataType.UInt64) /\
      Js.JSON_parse (JSON_parse_other sampleLibrary) b
      = Js.Throw (Js.SyntaxError "Unexpected token in JSON"))).
Proof.
  apply (decodeValue_throws_only sampleLibrary (Some "x") DataType.Int64). reflexivity.
Defined.

(** ** The modification time of a file made from a read result *)

Section FromReadResultStore.

Variable lib : Library.
Variable AtviseTypes : list AtviseType.t.

(** The file that [fromReadResult] makes does not get a date of its own:
    its [stat.mtime] is the [Date] object of the read result, and that
    object is the one [setMilliseconds(0)] is called on, so that the
    modification time of the read result changes too; no other object is
    touched, and without a modification time the store is left as it is. *)
Theorem fromReadResult_shares_mtime
    (readResult : ReadStream.ReadResult) (h : gmap positive Js.TimeValue)
    (variant : OpcVariant.t) (encoded : string) :
  ReadStream.value readResult = Some variant ->
  encodeValue lib variant = Js.Ok encoded ->
  exists file h',
    fromReadResult lib AtviseTypes readResult h = Js.Ok (file, h') /\
    stat_mtime file = ReadStream.mtime readResult /\
    h' = match ReadStream.mtime readResult with
         | Some date => snd (normalizeMtime lib date h)
         | None => h
         end /\
    (forall date : positive,
       ReadStream.mtime readResult = Some date ->
       h' !! date = option_map (Js.setMilliseconds0 (zone lib)) (h !! date) /\
       forall other : positive, other <> date -> h' !! other = h !! other).
Proof.
  intros Hv He.
  destruct (pathForReadResult_with_value AtviseTypes readResult) as [path Hp]; [congruence|].
  unfold fromReadResult. rewrite Hv, Hp, He. cbn [Js.bind].
  destruct (ReadStream.mtime readResult) as [date|]; cbn.
  - eexists. eexists. split; [reflexivity|]. split; [reflexivity|].
    split; [reflexivity|]. intros date' Hd. injection Hd as <-. split.
    + rewrite lookup_alter_eq. reflexivity.
    + intros other Hne. apply lookup_alter_ne. congruence.
  - eexists. eexists. split; [reflexivity|]. split; [reflexivity|].
    split; [reflexivity|]. intros date' Hd. discriminate Hd.
Qed.

End FromReadResultStore.

(** The Boolean read at 2017-12-19T13:17:01.337Z, its date stored at
    address 7. *)
Lemma fromReadResult_shares_mtime_witness :
  let h : gmap positive Js.TimeValue := {[ 7%positive := Some 1513689421337%Z ]} in
  let readResult :=
    {| ReadStream.nodeId := NodeId.ofString "AGENT.OBJECTS.Switch";
       ReadStream.value :=
         Some (OpcVariant.new DataType.Boolean VariantArrayType.Scalar (Some (Scalar true)));
       ReadStream.referenceDescription :=
         {| ReadStream.typeDefinition := VariableTypeDefinition |};
       ReadStream.mtime := Some 7%positive |} in
  exists file h',
    fromReadResult sampleLibrary sampleTypes readResult h = Js.Ok (file, h') /\
    stat_mtime file = Some 7%positive /\
    h' !! 7%positive = Some (Some 1513689421000%Z).
Proof.
  cbv zeta.
  destruct (fromReadResult_shares_mtime sampleLibrary sampleTypes
              {| ReadStream.nodeId := NodeId.ofString "AGENT.OBJECTS.Switch";
                 ReadStream.value :=
                   Some (OpcVariant.new DataType.Boolean VariantArrayType.Scalar
                           (Some (Scalar true)));
                 ReadStream.referenceDescription :=
                   {| ReadStream.typeDefinition := VariableTypeDefinition |};
                 ReadStream.mtime := Some 7%positive |}
              {[ 7%positive := Some 1513689421337%Z ]} _ "true" eq_refl eq_refl)
    as (file & h' & Hf & Hm & _ & Hn).
  exists file, h'. split; [exact Hf|]. split; [exact Hm|].
  destruct (Hn 7%positive eq_refl) as [Hd _]. rewrite Hd. vm_compute. reflexivity.
Defined.

(** ** The getters of a file *)

Section GetterFacts.

Variable AtviseTypes : list AtviseType.t.

Lemma getMetadata_sets_all (this : AtviseFile) :
  exists d a t,
    _dataType (_getMetadata AtviseTypes this) = Some d /\
    _arrayType (_getMetadata AtviseTypes this) = Some a /\
    _typeDefinition (_getMetadata AtviseTypes this) = Some t.
Proof.
  pose proof (resolveTypeDefinition_complete AtviseTypes (consumeExtensions this)) as Hc.
  pose proof (resolveTypeDefinition_arrayType AtviseTypes (consumeExtensions this)) as Ha.
  destruct (consumeExtensions_arrayType this) as [a Hs].
  unfold _getMetadata. unfold complete in Hc.
  destruct (_dataType _) as [d|]; [|discriminate].
  destruct (_typeDefinition _) as [t|]; [|discriminate].
  exists d, a, t. repeat split. congruence.
Qed.

Lemma typeDefinition_is_set (this : AtviseFile) :
  exists t, fst (typeDefinition AtviseTypes this) = Some t.
Proof.
  unfold typeDefinition. destruct (_typeDefinition this) as [t|] eqn:E; cbn.
  - exists t. exact E.
  - destruct (getMetadata_sets_all this) as (d & a & t & _ & _ & Ht).
    exists t. exact Ht.
Qed.

(** Once the three getters were read, the metadata is set and stays: the
    getters of the array type and of the type definition give the stored
    field and leave the file as it is, and so does the getter of the data
    type, unless the stored data type is the flag [false] of [DataType]
    (the inference stores it for the extension [_is_flaggable]): the getter
    takes it for a missing one and infers the metadata again on every
    read. *)
Theorem getters_cache_metadata (this : AtviseFile) :
  let f := snd (typeDefinition AtviseTypes
                  (snd (arrayType AtviseTypes (snd (dataType AtviseTypes this))))) in
  (exists d a t,
     _dataType f = Some d /\ _arrayType f = Some a /\ _typeDefinition f = Some t) /\
  arrayType AtviseTypes f = (_arrayType f, f) /\
  typeDefinition AtviseTypes f = (_typeDefinition f, f) /\
  (_dataType f <> Some DataType.IsFlaggable ->
   dataType AtviseTypes f = (_dataType f, f)) /\
  (_dataType f = Some DataType.IsFlaggable ->
   snd (dataType AtviseTypes f) = _getMetadata AtviseTypes f).
Proof.
  cbv zeta.
  assert (Hall : exists d a t,
    let f := snd (typeDefinition AtviseTypes
                    (snd (arrayType AtviseTypes (snd (dataType AtviseTypes this))))) in
    _dataType f = Some d /\ _arrayType f = Some a /\ _typeDefinition f = Some t).
  { cbv zeta.
    assert (H1 : exists d, _dataType (snd (dataType AtviseTypes this)) = Some d).
    { unfold dataType. cbn [snd]. destruct (noDataType this) eqn:En.
      - destruct (getMetadata_sets_all this) as (d & _ & _ & Hd & _). exists d. exact Hd.
      - unfold noDataType in En. destruct (_dataType this) as [d0|]; [|discriminate En].
        exists d0. reflexivity. }
    generalize dependent (snd (dataType AtviseTypes this)). intros f1 [d1 H1].
    assert (H2 : exists d a, _dataType (snd (arrayType AtviseTypes f1)) = Some d /\
                             _arrayType (snd (arrayType AtviseTypes f1)) = Some a).
    { unfold arrayType. cbn [snd]. destruct (_arrayType f1) as [a0|] eqn:Ea.
      - exists d1, a0. split; assumption.
      - destruct (getMetadata_sets_all f1) as (d & a & _ & Hd & Ha & _).
        exists d, a. split; assumption. }
    generalize dependent (snd (arrayType AtviseTypes f1)). intros f2 (d2 & a2 & Hd2 & Ha2).
    unfold typeDefinition. cbn [snd]. destruct (_typeDefinition f2) as [t0|] eqn:Et.
    - exists d2, a2, t0. auto.
    - apply getMetadata_sets_all. }
  destruct Hall as (d & a & t & Hall). cbv zeta in Hall.
  generalize dependent
    (snd (typeDefinition AtviseTypes
            (snd (arrayType AtviseTypes (snd (dataType AtviseTypes this)))))).
  intros f (Hd & Ha & Ht).
  split; [exists d, a, t; auto|].
  unfold dataType, arrayType, typeDefinition, noDataType. rewrite Hd, Ha, Ht.
  split; [congruence|]. split; [congruence|]. split.
  - intros Hne. destruct d; cbn; rewrite ?Hd; try reflexivity. contradiction.
  - intros Hf. injection Hf as ->. reflexivity.
Qed.

(** The type tests never throw, and no file passes two of them. *)
Theorem type_tests_exclusive (this : AtviseFile) :
  exists display script quickDynamic : bool,
    isDisplay AtviseTypes this = Js.Ok display /\
    isScript AtviseTypes this = Js.Ok script /\
    isQuickDynamic AtviseTypes this = Js.Ok quickDynamic /\
    display && script = false /\
    display && quickDynamic = false /\
    script && quickDynamic = false.
Proof.
  unfold isDisplay, isScript, isQuickDynamic, typeDefinitionIs.
  destruct (typeDefinition_is_set this) as [t Ht]. rewrite Ht.
  do 3 eexists. do 3 (split; [reflexivity|]).
  unfold NodeId.strictEquals.
  repeat case_bool_decide; repeat split; try reflexivity; congruence.
Qed.

Lemma startsWith_self (p : string) : Js.startsWith p p = Some EmptyString.
Proof.
  induction p as [|c p IH]; [reflexivity|].
  cbn [Js.startsWith]. rewrite Ascii.eqb_refl. exact IH.
Qed.

Lemma splitHead_unfold (sep s : string) :
  Js.splitHead sep s =
  match Js.startsWith sep s with
  | Some _ => EmptyString
  | None =>
      match s with
      | EmptyString => EmptyString
      | String c r => String c (Js.splitHead sep r)
      end
  end.
Proof. destruct s; reflexivity. Qed.

(** The part before the first [.suffix] of [base.suffix] is [base], when
    [base] has no dot. *)
Lemma splitHead_base (base suffix : string) :
  dotFree base = true ->
  Js.splitHead (String "." suffix) (base ++ String "." suffix) = base.
Proof.
  induction base as [|c base IH]; intros Hb.
  - rewrite splitHead_unfold.
    change (EmptyString ++ String "." suffix) with (String "." suffix).
    rewrite startsWith_self. reflexivity.
  - simpl in Hb. apply andb_true_iff in Hb as [Hc Hb]. apply negb_true_iff in Hc.
    rewrite splitHead_unfold.
    change (String c base ++ String "." suffix) with (String c (base ++ String "." suffix)).
    cbn [Js.startsWith]. rewrite Ascii.eqb_sym, Hc. rewrite (IH Hb). reflexivity.
Qed.

(** The node id of a file stored for a variable or a property is read from
    the path without its extensions: for a path [base.suffix] whose [base]
    has no dot and whose suffix is the one [pathForReadResult] appends, the
    getter gives [NodeId.fromFilePath(base)], provided the table has no
    type that keeps its extension under the type definitions of variables
    and of properties. *)
Theorem nodeId_of_variable_path
    (base d : string) (contents : option string)
    (dt : DataType.t) (at' : VariantArrayType.t) (property : bool) :
  dotFree base = true ->
  dotFree d = true ->
  keepsExtension AtviseTypes
    (if property then PropertyTypeDefinition else VariableTypeDefinition) = false ->
  nodeId AtviseTypes (fileAt (base ++ String "." (suffixFor property dt at')) d contents)
  = Js.Ok (NodeId.fromFilePath base).
Proof.
  intros Hb Hd Hk.
  destruct (getMetadata_of_suffix AtviseTypes base d contents dt at' property Hb Hd)
    as (_ & _ & Ht).
  unfold nodeId, typeDefinition. cbn [fileAt _typeDefinition fst relative].
  rewrite Ht. unfold keepsExtension in Hk.
  rewrite (ExtensionRegExp_match_suffix base _ Hb (suffixFor_noSeparator property dt at')).
  change ("." ++ suffixFor property dt at') with (String "." (suffixFor property dt at')).
  rewrite (splitHead_base base _ Hb).
  destruct (Js.lookup _ _ _) as [atType| |]; [rewrite Hk|..]; reflexivity.
Qed.

(** A file without any dot in its path and its directory has no extension
    to strip: its node id is read from the whole path when the table has the
    generic binary resource as a type that keeps its extension, and the
    getter throws a [TypeError] when it has not. *)
Theorem nodeId_without_extension (this : AtviseFile) :
  dotFree (relative this) = true ->
  dotFree (dirname this) = true ->
  _dataType this = None ->
  _typeDefinition this = None ->
  nodeId AtviseTypes this =
  if keepsExtension AtviseTypes OctetStreamTypeDefinition
  then Js.Ok (NodeId.fromFilePath (relative this))
  else Js.Throw (Js.TypeError "Cannot read property '1' of null").
Proof.
  intros Hr Hd Hn Ht.
  destruct (without_extension_is_resource AtviseTypes this Hr Hd Hn) as [Hres _].
  unfold nodeId, typeDefinition. rewrite Ht. cbn [fst]. rewrite Hres.
  unfold keepsExtension. rewrite (ExtensionRegExp_match_dotFree _ Hr).
  destruct (Js.lookup _ _ _) as [atType| |]; [destruct (AtviseType.keepExtension atType)|..];
    reflexivity.
Qed.

End GetterFacts.

(** The variable [AGENT.OBJECTS.Switch], stored as an array of Booleans. *)
Lemma nodeId_of_variable_path_witness :
  nodeId sampleTypes (fileAt "AGENT/OBJECTS/Switch.bool.array" "AGENT/OBJECTS" None)
  = Js.Ok (NodeId.ofString "AGENT.OBJECTS.Switch").
Proof.
  apply (nodeId_of_variable_path sampleTypes "AGENT/OBJECTS/Switch" "AGENT/OBJECTS" None
           DataType.Boolean VariantArrayType.Array false); reflexivity.
Defined.

(** A file without extension, with a table that does not have the generic
    binary resource. *)
Lemma nodeId_without_extension_witness :
  nodeId sampleTypes (fileAt "AGENT/DISPLAYS/Main" "AGENT/DISPLAYS" None)
  = Js.Throw (Js.TypeError "Cannot read property '1' of null").
Proof.
  apply (nodeId_without_extension sampleTypes
           (fileAt "AGENT/DISPLAYS/Main" "AGENT/DISPLAYS" None)); reflexivity.
Defined.

(** ** Arrays of 64-bit integers *)

Module PairsFacts.

Import NumberFacts.

Lemma parseValue_pair (k : nat) (p : Z * Z) (rest : string) :
  Js.parseValue (S (S (S (S k)))) (Js.JSON_stringify_pair p ++ rest)
  = Some (Js.Array [Js.Number (fst p); Js.Number (snd p)], rest).
Proof.
  destruct p as [high low]. unfold Js.JSON_stringify_pair. cbn [fst snd].
  rewrite !append_assoc.
  change ("]" ++ rest) with (String "]" rest).
  set (r2 := "," ++ Js.Number_toString low ++ String "]" rest).
  change ("[" ++ Js.Number_toString high ++ r2)
    with (String "[" (Js.Number_toString high ++ r2)).
  assert (Hfirst : Js.parseValue (S (S k)) (Js.Number_toString high ++ r2)
                   = Some (Js.Number high,
                           String "," (Js.Number_toString low ++ String "]" rest)))
    by (apply parseValue_number; reflexivity).
  assert (Hsecond : Js.parseValue (S k) (Js.Number_toString low ++ String "]" rest)
                    = Some (Js.Number low, String "]" rest))
    by (apply parseValue_number; reflexivity).
  destruct (Number_toString_head high r2) as (c & s & E & Hc).
  destruct (Number_toString_head low (String "]" rest)) as (c' & s' & E' & Hc').
  rewrite E in Hfirst |- *. rewrite parseValue_open by exact Hc.
  rewrite (parseElements_more _ _ _ _ Hfirst).
  rewrite E' in Hsecond |- *. rewrite isNumberStart_skipSpace by exact Hc'.
  rewrite (parseElements_last _ _ _ _ Hsecond). reflexivity.
Qed.

Lemma join_cons (p : string) (q : string) (m : list string) :
  Js.join "," (p :: q :: m) = p ++ "," ++ Js.join "," (q :: m).
Proof. reflexivity. Qed.

(** The printed elements start with a bracket. *)
Lemma join_head (p : Z * Z) (l : list (Z * Z)) (r : string) :
  exists s, Js.join "," (map Js.JSON_stringify_pair (p :: l)) ++ r = String "[" s.
Proof.
  destruct l as [|q l]; cbn [map].
  - cbn [Js.join]. unfold Js.JSON_stringify_pair. rewrite append_assoc.
    eexists. reflexivity.
  - rewrite join_cons. unfold Js.JSON_stringify_pair at 1. rewrite !append_assoc.
    eexists. reflexivity.
Qed.

Lemma length_append (a b : string) :
  String.length (a ++ b) = (String.length a + String.length b)%nat.
Proof.
  induction a as [|c a IH]; [reflexivity|].
  change (String.length (String c (a ++ b)) = S (String.length a + String.length b)).
  cbn [String.length]. rewrite IH. reflexivity.
Qed.

Lemma join_length (p : Z * Z) (l : list (Z * Z)) :
  (length l < String.length (Js.join "," (map Js.JSON_stringify_pair (p :: l))))%nat.
Proof.
  revert p. induction l as [|q l IH]; intros p.
  - destruct (join_head p [] "") as [s E]. rewrite append_nil_r in E. rewrite E.
    cbn [length String.length]. lia.
  - cbn [map]. rewrite join_cons. rewrite !length_append.
    specialize (IH q). cbn [map] in IH. cbn [length String.length]. lia.
Qed.

Lemma parseElements_pairs (l : list (Z * Z)) (p : Z * Z) (k : nat) (rest : string) :
  Js.parseElements (S (length l + 4 + k))
    (Js.join "," (map Js.JSON_stringify_pair (p :: l)) ++ String "]" rest)
  = Some (map (fun q => Js.Array [Js.Number (fst q); Js.Number (snd q)]) (p :: l), rest).
Proof.
  revert p k. induction l as [|q l IH]; intros p k.
  - cbn [map Js.join length Nat.add].
    apply parseElements_last. apply parseValue_pair.
  - cbn [map]. rewrite join_cons. rewrite !append_assoc.
    change ("," ++ Js.join "," (Js.JSON_stringify_pair q :: map Js.JSON_stringify_pair l)
              ++ String "]" rest)
      with (String "," (Js.join "," (map Js.JSON_stringify_pair (q :: l))
                          ++ String "]" rest)).
    cbn [length].
    replace (S (length l) + 4 + k)%nat with (S (length l + 4 + k)) by lia.
    rewrite (parseElements_more (S (length l + 4 + k)) _
               (Js.join "," (map Js.JSON_stringify_pair (q :: l)) ++ String "]" rest)
               (Js.Array [Js.Number (fst p); Js.Number (snd p)])).
    + destruct (join_head q l (String "]" rest)) as [s E].
      rewrite E at 1. change (Js.skipSpace (String "[" s)) with (String "[" s).
      rewrite <- E. rewrite IH. reflexivity.
    + replace (S (length l + 4 + k)) with (S (S (S (S (S (length l + k)))))) by lia.
      apply parseValue_pair.
Qed.

(** [JSON.parse] reads back the array of arrays of two integers
    [JSON.stringify] printed. *)
Lemma JSON_parse_pairs (other : string -> Js.Outcome Js.Value) (l : list (Z * Z)) :
  Js.JSON_parse other (Js.JSON_stringify_pairs l)
  = Js.Ok (Js.Array (map (fun q => Js.Array [Js.Number (fst q); Js.Number (snd q)]) l)).
Proof.
  destruct l as [|p l]; [reflexivity|].
  unfold Js.JSON_stringify_pairs, Js.JSON_parse.
  set (J := Js.join "," (map Js.JSON_stringify_pair (p :: l))).
  change ("[" ++ J ++ "]") with (String "[" (J ++ String "]" "")).
  change (Js.skipSpace (String "[" (J ++ String "]" "")))
    with (String "[" (J ++ String "]" "")).
  assert (Hfuel : exists k,
            (2 * String.length (String "[" (J ++ String "]" "")) + 2
             = S (S (length l + 4 + k)))%nat).
  { pose proof (join_length p l) as Hl. fold J in Hl.
    cbn [String.length]. rewrite length_append.
    exists (2 * String.length J - length l)%nat. cbn [String.length]. lia. }
  destruct Hfuel as [k ->].
  destruct (join_head p l (String "]" "")) as [s E]. fold J in E.
  rewrite E.
  change (Js.parseValue (S (S (length l + 4 + k))) (String "[" (String "[" s)))
    with (match Js.parseElements (S (length l + 4 + k)) (String "[" s) with
          | Some (l', r') => Some (Js.Array l', r')
          | None => None
          end).
  rewrite <- E. subst J. rewrite parseElements_pairs. reflexivity.
Qed.

Lemma stringify_pairs_not_empty (l : list (Z * Z)) :
  (String.length (Js.JSON_stringify_pairs l) =? 0)%nat = false.
Proof. reflexivity. Qed.

(** An array of 64-bit integers, signed or not, of any length and with any
    array type, is written as a JSON text from which [decodeValue] gives
    the array back. *)
Theorem int64_array_roundtrip
    (lib : Library) (arrayType : VariantArrayType.t) (l : list (Z * Z)) :
  roundTrips lib DataType.Int64 arrayType (Some (Elements l)) /\
  roundTrips lib DataType.UInt64 arrayType (Some (Elements l)).
Proof.
  split; exists (Js.JSON_stringify_pairs l); (split; [reflexivity|]);
    unfold decodeValue; rewrite stringify_pairs_not_empty;
    cbn [Decoder valueOf]; rewrite JSON_parse_pairs; reflexivity.
Qed.

End PairsFacts.

(** ** The array type of a path *)

Section ArrayTypeFacts.

Variable AtviseTypes : list AtviseType.t.

Lemma lastOf_cons (a : string) (l : list string) (e : string) :
  lastOf l = Some e -> lastOf (a :: l) = Some e.
Proof. destruct l; [discriminate | intros H; exact H]. Qed.

Lemma lastOf_splitAt_suffix (e s cur : string) :
  e = "array" \/ e = "matrix" ->
  lastOf (Js.splitAt "." cur (s ++ String "." e)) = Some e.
Proof.
  intros He. revert cur. induction s as [|c s IH]; intros cur.
  - destruct He as [-> | ->]; reflexivity.
  - change (String c s ++ String "." e) with (String c (s ++ String "." e)).
    cbn [Js.splitAt]. destruct (Ascii.eqb c ".").
    + apply lastOf_cons. apply IH.
    + apply IH.
Qed.

Lemma match_array_suffix (e P : string) :
  e = "array" \/ e = "matrix" ->
  exists m1, ExtensionRegExp_match (P ++ String "." e) = Some m1 /\
             lastOf (Js.split "." m1) = Some e.
Proof.
  intros He. induction P as [|c P IH].
  - exists e. destruct He as [-> | ->]; split; reflexivity.
  - change (String c P ++ String "." e) with (String c (P ++ String "." e)).
    cbn [ExtensionRegExp_match].
    destruct (Ascii.eqb c "." && noSeparator (P ++ String "." e)).
    + exists (P ++ String "." e). split; [reflexivity|].
      apply lastOf_splitAt_suffix. exact He.
    + exact IH.
Qed.

Lemma extensionsOf_last (this : AtviseFile) (P e : string) :
  e = "array" \/ e = "matrix" ->
  relative this = P ++ String "." e ->
  lastOf (extensionsOf this) = Some e.
Proof.
  intros He Hr. unfold extensionsOf. rewrite Hr.
  destruct (match_array_suffix e P He) as (m1 & -> & Hl).
  destruct (1 <? length (Js.split "." (dirname this)))%nat;
    [apply lastOf_cons|]; exact Hl.
Qed.

(** The array type that [_getMetadata] gives is decided by the last
    extensions alone. *)
Lemma arrayType_of_extensions (table : list AtviseType.t) (this : AtviseFile) :
  _arrayType (_getMetadata table this)
  = Some (if bool_decide (lastOf (extensionsOf this) = Some "array")
          then if bool_decide (lastOf (removelast (extensionsOf this)) = Some "matrix")
               then VariantArrayType.Matrix
               else VariantArrayType.Array
          else if bool_decide (lastOf (extensionsOf this) = Some "matrix")
               then VariantArrayType.Matrix
               else VariantArrayType.Scalar).
Proof.
  unfold _getMetadata. rewrite resolveTypeDefinition_arrayType.
  unfold consumeExtensions. rewrite !ifLastExtensionMatches_arrayType by reflexivity.
  change (extensionsOf (set_arrayType (Some VariantArrayType.Scalar) this))
    with (extensionsOf this).
  unfold ifLastExtensionMatches.
  destruct (bool_decide (lastOf (extensionsOf this) = Some "array")); cbn [fst snd].
  - destruct (bool_decide (lastOf (removelast (extensionsOf this)) = Some "matrix"));
      reflexivity.
  - destruct (bool_decide (lastOf (extensionsOf this) = Some "matrix")); reflexivity.
Qed.

(** The path of an array or of a matrix ends with the extension of its
    array type, whatever the type definition and the table of types. *)
Lemma pathForReadResult_array_suffix
    (readResult : ReadStream.ReadResult) (variant : OpcVariant.t) :
  ReadStream.value readResult = Some variant ->
  OpcVariant.arrayType variant <> VariantArrayType.Scalar ->
  exists P,
    pathForReadResult AtviseTypes readResult
    = Js.Ok (P ++ String "."
                    (if bool_decide (OpcVariant.arrayType variant = VariantArrayType.Array)
                     then "array" else "matrix")).
Proof.
  intros Hv Ha. unfold pathForReadResult. rewrite Hv. cbv zeta.
  destruct (OpcVariant.arrayType variant); [contradiction|..]; cbn [VariantArrayType.value];
    cbn [Z.eqb negb]; eexists; reflexivity.
Qed.

(** The array type of an array or a matrix is read back from the path that
    [pathForReadResult] built, for every type definition, every table of
    types and every file with that path: a matrix is inferred as a matrix,
    and an array as an array, unless the extension before [array] is
    [matrix], in which case it is inferred as a matrix. *)
Theorem array_type_recovered
    (readResult : ReadStream.ReadResult) (variant : OpcVariant.t)
    (inferring : list AtviseType.t) :
  ReadStream.value readResult = Some variant ->
  OpcVariant.arrayType variant <> VariantArrayType.Scalar ->
  exists path,
    pathForReadResult AtviseTypes readResult = Js.Ok path /\
    forall this : AtviseFile,
      relative this = path ->
      _arrayType (_getMetadata inferring this)
      = Some (if bool_decide (lastOf (removelast (extensionsOf this)) = Some "matrix")
              then VariantArrayType.Matrix
              else OpcVariant.arrayType variant).
Proof.
  intros Hv Ha.
  destruct (pathForReadResult_array_suffix readResult variant Hv Ha) as [P HP].
  eexists. split; [exact HP|]. intros this Hr.
  assert (He : lastOf (extensionsOf this)
               = Some (if bool_decide (OpcVariant.arrayType variant = VariantArrayType.Array)
                       then "array" else "matrix")).
  { apply (extensionsOf_last this P); [|exact Hr].
    destruct (bool_decide _); [left | right]; reflexivity. }
  rewrite arrayType_of_extensions. clear HP Hr.
  destruct (OpcVariant.arrayType variant); [contradiction|..].
  - rewrite bool_decide_eq_true_2 in He by reflexivity. rewrite He.
    rewrite bool_decide_eq_true_2 by reflexivity. reflexivity.
  - rewrite bool_decide_eq_false_2 in He by discriminate. rewrite He.
    rewrite bool_decide_eq_false_2 by discriminate.
    rewrite bool_decide_eq_true_2 by reflexivity.
    destruct (bool_decide (lastOf _ = _)); reflexivity.
Qed.

End ArrayTypeFacts.

(** An array of Booleans of a type definition that the table does not
    have, inferred with an empty table. *)
Lemma array_type_recovered_witness :
  let readResult :=
    {| ReadStream.nodeId := NodeId.ofString "AGENT.OBJECTS.Switches";
       ReadStream.value :=
         Some (OpcVariant.new DataType.Boolean VariantArrayType.Array
                 (Some (Elements [true; false])));
       ReadStream.referenceDescription :=
         {| ReadStream.typeDefinition := NodeId.ofString "VariableTypes.PROJECT.Custom" |};
       ReadStream.mtime := None |} in
  pathForReadResult sampleTypes readResult = Js.Ok "AGENT/OBJECTS/Switches.var.bool.array" /\
  _arrayType (_getMetadata []
                (fileAt "AGENT/OBJECTS/Switches.var.bool.array" "AGENT/OBJECTS" None))
  = Some VariantArrayType.Array.
Proof.
  cbv zeta.
  destruct (array_type_recovered sampleTypes
              {| ReadStream.nodeId := NodeId.ofString "AGENT.OBJECTS.Switches";
                 ReadStream.value :=
                   Some (OpcVariant.new DataType.Boolean VariantArrayType.Array
                           (Some (Elements [true; false])));
                 ReadStream.referenceDescription :=
                   {| ReadStream.typeDefinition :=
                        NodeId.ofString "VariableTypes.PROJECT.Custom" |};
                 ReadStream.mtime := None |}
              _ [] eq_refl ltac:(discriminate))
    as (path & Hp & H).
  split; [reflexivity|].
  injection Hp as <-.
  exact (H (fileAt "AGENT/OBJECTS/Switches.var.bool.array" "AGENT/OBJECTS" None) eq_refl).
Defined.
